(** * City Transit Control API: the credential-verification layer

    A shallow embedding of [examples/fastapi_auth_demo/app.py]: the five
    authentication dependencies ([require_basic_auth], [require_bearer_token],
    [require_api_key_header], [require_session_cookie], [require_oauth2_token]),
    the hybrid dependency [require_bearer_or_api_key], the two issuance
    endpoints and the handlers behind them.

    Python exceptions are values of an error type, and every function of the
    application runs in a small monad that also records which comparison
    primitive was applied to which strings, in evaluation order. *)

From Stdlib Require Import String Ascii List Bool ZArith NArith.
Import ListNotations.
Local Open Scope string_scope.

(** ** Python strings

    A [str] that reaches the application from a header or a cookie was decoded
    as latin-1 by the server, so its code points are exactly the 256 values of
    [ascii]; a [string] is such a [str].  The strings of a JSON body, a form or
    a query are only compared for equality, apart from the city filter of
    [list_routes]; their code points above 255 are not represented. *)

(** [str.isascii] on one code point: the code is below 128. *)
Definition char_isascii (c : ascii) : bool :=
  match c with
  | Ascii _ _ _ _ _ _ _ b7 => negb b7
  end.

(** [str.isascii()]. *)
Fixpoint isascii (s : string) : bool :=
  match s with
  | EmptyString => true
  | String c rest => char_isascii c && isascii rest
  end.

(** [str.lower()] on one code point below 256: A-Z and the latin-1 capitals
    (192-214 and 216-222) move up by 32, every other code point stays. *)
Definition char_lower (c : ascii) : ascii :=
  let n := N_of_ascii c in
  if ((65 <=? n) && (n <=? 90)
      || (192 <=? n) && (n <=? 214)
      || (216 <=? n) && (n <=? 222))%N
  then ascii_of_N (n + 32)
  else c.

(** [str.lower()]. *)
Fixpoint lower (s : string) : string :=
  match s with
  | EmptyString => EmptyString
  | String c rest => String (char_lower c) (lower rest)
  end.

(** [s.partition(sep)] for a one-character separator: the text before the
    first separator, the separator when it was found (the empty string
    otherwise), and the text after it. *)
Fixpoint partition (sep : ascii) (s : string) : string * string * string :=
  match s with
  | EmptyString => (EmptyString, EmptyString, EmptyString)
  | String c rest =>
      if Ascii.eqb c sep
      then (EmptyString, String sep EmptyString, rest)
      else let '(before, found, after) := partition sep rest in
           (String c before, found, after)
  end.

(** Truth value of a [str]: the empty string is false. *)
Definition truthy (s : string) : bool :=
  match s with
  | EmptyString => false
  | String _ _ => true
  end.

(** Truth value of a [str | None]. *)
Definition opt_truthy (o : option string) : bool :=
  match o with
  | None => false
  | Some s => truthy s
  end.

(** ** Exceptions and the evaluation monad *)

(** [fastapi.HTTPException(status_code, detail, headers)]. *)
Record HTTPException : Type := mkHTTPException {
  status_code : Z;
  detail : string;
  headers : list (string * string)
}.

(** What a call can raise: an [HTTPException], which the framework turns into
    the response it describes, or the [TypeError] of [secrets.compare_digest],
    which nothing catches (the server answers 500). *)
Inductive exn : Type :=
| HTTPError (e : HTTPException)
| TypeError.

Inductive outcome (A : Type) : Type :=
| Returned (a : A)
| Raised (e : exn).
Arguments Returned {A} a.
Arguments Raised {A} e.

(** The comparisons of presented material against a trusted constant:
    [secrets.compare_digest a b], or the native [a != b]. *)
Inductive Event : Type :=
| CompareDigest (a b : string)
| NativeNe (a b : string).

(** A computation: the comparisons it made, oldest first, and how it ended. *)
Definition M (A : Type) : Type := (list Event * outcome A)%type.

Definition ret {A} (a : A) : M A := ([], Returned a).

Definition raise {A} (e : exn) : M A := ([], Raised e).

Definition bind {A B} (m : M A) (k : A -> M B) : M B :=
  match m with
  | (t, Returned a) => let '(t', r) := k a in ((t ++ t')%list, r)
  | (t, Raised e) => (t, Raised e)
  end.

Notation "x <- m ;; k" := (bind m (fun x => k))
  (at level 61, m at next level, right associativity).

Definition lift {A} (o : outcome A) : M A := ([], o).

Definition run {A} (m : M A) : outcome A := snd m.

Definition trace {A} (m : M A) : list Event := fst m.

(** [raise HTTPException(status_code=..., detail=..., headers=...)]. *)
Definition raise_http {A} (code : Z) (msg : string)
  (hs : list (string * string)) : M A :=
  raise (HTTPError (mkHTTPException code msg hs)).

(** [secrets.compare_digest(a, b)], that is [hmac.compare_digest], on two
    [str]: the arguments must be "ASCII only", and the call raises
    [TypeError] ("comparing strings with non-ASCII characters is not
    supported") when either holds a character above 127; otherwise it answers
    whether they are equal. *)
Definition compare_digest (a b : string) : M bool :=
  ([CompareDigest a b],
   if isascii a && isascii b then Returned (String.eqb a b)
   else Raised TypeError).

(** [a != b] on two [str]. *)
Definition str_ne (a b : string) : M bool :=
  ([NativeNe a b], Returned (negb (String.eqb a b))).

(** [status.HTTP_*]. *)
Definition HTTP_201_CREATED : Z := 201.
Definition HTTP_401_UNAUTHORIZED : Z := 401.
Definition HTTP_403_FORBIDDEN : Z := 403.
Definition HTTP_404_NOT_FOUND : Z := 404.

(** ** Trust material (app.py, lines 23-30) *)

Definition DEMO_BASIC_USERNAME : string := "admin".
Definition DEMO_BASIC_PASSWORD : string := "admin-password".
Definition DEMO_BEARER_TOKEN : string := "demo-bearer-token".
Definition DEMO_HEADER_API_KEY : string := "demo-header-api-key".
Definition DEMO_SESSION_TOKEN : string := "demo-session-token".
Definition DEMO_OAUTH_USERNAME : string := "oauth-user".
Definition DEMO_OAUTH_PASSWORD : string := "oauth-password".
Definition DEMO_OAUTH_TOKEN : string := "demo-oauth-token".

(** ** Credentials as the security classes hand them over *)

(** [fastapi.security.HTTPBasicCredentials]. *)
Record HTTPBasicCredentials : Type := mkBasic {
  username : string;
  password : string
}.

(** [fastapi.security.HTTPAuthorizationCredentials]. *)
Record HTTPAuthorizationCredentials : Type := mkAuthorization {
  scheme : string;
  credentials : string
}.

Definition WWW_Basic : list (string * string) := [("WWW-Authenticate", "Basic")].
Definition WWW_Bearer : list (string * string) := [("WWW-Authenticate", "Bearer")].

(** ** The authentication dependencies (app.py, lines 154-258) *)

(** [require_basic_auth]: both digests are taken before the verdict. *)
Definition require_basic_auth (creds : option HTTPBasicCredentials)
  : M HTTPBasicCredentials :=
  match creds with
  | None =>
      raise_http HTTP_401_UNAUTHORIZED
        "Missing basic authentication credentials." WWW_Basic
  | Some c =>
      is_valid_user <- compare_digest (username c) DEMO_BASIC_USERNAME ;;
      is_valid_password <- compare_digest (password c) DEMO_BASIC_PASSWORD ;;
      if negb (is_valid_user && is_valid_password)
      then raise_http HTTP_401_UNAUTHORIZED
             "Invalid basic authentication credentials." WWW_Basic
      else ret c
  end.

(** [require_bearer_token]: the two operands of
    [credentials is None or credentials.scheme.lower() != "bearer"] are the
    two ways into the first [raise]. *)
Definition require_bearer_token (creds : option HTTPAuthorizationCredentials)
  : M string :=
  match creds with
  | None =>
      raise_http HTTP_401_UNAUTHORIZED "Missing bearer token." WWW_Bearer
  | Some c =>
      if negb (String.eqb (lower (scheme c)) "bearer")
      then raise_http HTTP_401_UNAUTHORIZED "Missing bearer token." WWW_Bearer
      else
        ok <- compare_digest (credentials c) DEMO_BEARER_TOKEN ;;
        if negb ok
        then raise_http HTTP_401_UNAUTHORIZED "Invalid bearer token." WWW_Bearer
        else ret (credentials c)
  end.

(** [require_api_key_header]. *)
Definition require_api_key_header (x_api_key : option string) : M string :=
  match x_api_key with
  | None => raise_http HTTP_403_FORBIDDEN "Missing x-api-key header." []
  | Some k =>
      ok <- compare_digest k DEMO_HEADER_API_KEY ;;
      if negb ok
      then raise_http HTTP_403_FORBIDDEN "Invalid x-api-key header." []
      else ret k
  end.

(** [require_session_cookie]. *)
Definition require_session_cookie (session_token : option string) : M string :=
  match session_token with
  | None => raise_http HTTP_403_FORBIDDEN "Missing session_token cookie." []
  | Some t =>
      ok <- compare_digest t DEMO_SESSION_TOKEN ;;
      if negb ok
      then raise_http HTTP_403_FORBIDDEN "Invalid session_token cookie." []
      else ret t
  end.

(** [require_oauth2_token]. *)
Definition require_oauth2_token (token : string) : M string :=
  ok <- compare_digest token DEMO_OAUTH_TOKEN ;;
  if negb ok
  then raise_http HTTP_401_UNAUTHORIZED "Invalid OAuth2 access token." WWW_Bearer
  else ret token.

(** The first [if] of [require_bearer_or_api_key]: [Some "bearer"] stands for
    the [return], [None] for falling through to the next statement. *)
Definition try_bearer (creds : option HTTPAuthorizationCredentials)
  : M (option string) :=
  match creds with
  | None => ret None
  | Some c =>
      if String.eqb (lower (scheme c)) "bearer"
      then
        ok <- compare_digest (credentials c) DEMO_BEARER_TOKEN ;;
        if ok then ret (Some "bearer") else ret None
      else ret None
  end.

(** The second [if]: [x_api_key and secrets.compare_digest(...)]. *)
Definition try_api_key (x_api_key : option string) : M (option string) :=
  match x_api_key with
  | None => ret None
  | Some k =>
      if truthy k
      then
        ok <- compare_digest k DEMO_HEADER_API_KEY ;;
        if ok then ret (Some "api_key_header") else ret None
      else ret None
  end.

(** [require_bearer_or_api_key]: the bearer token first, the API key next,
    one 401 with the bearer challenge when neither returned. *)
Definition require_bearer_or_api_key
  (creds : option HTTPAuthorizationCredentials) (x_api_key : option string)
  : M string :=
  first <- try_bearer creds ;;
  match first with
  | Some method => ret method
  | None =>
      second <- try_api_key x_api_key ;;
      match second with
      | Some method => ret method
      | None =>
          raise_http HTTP_401_UNAUTHORIZED
            "Provide a valid bearer token or x-api-key header." WWW_Bearer
      end
  end.

(** ** The security classes of the framework (app.py, lines 32-44)

    The credentials above are produced by instances of
    [fastapi.security]; their [__call__] methods are modelled here with the
    constructor arguments of the source.  A request is what they read of it:
    [request.headers.get("Authorization")], [request.headers.get("x-api-key")]
    and [request.cookies.get("session_token")]. *)

Record Request : Type := mkRequest {
  header_authorization : option string;
  header_x_api_key : option string;
  cookie_session_token : option string
}.

(** [fastapi.security.utils.get_authorization_scheme_param]: the header cut
    at its first space.  (Later releases of the library also strip the
    white space around the parameter; the statements below are made on the
    two halves returned here, whichever characters the header has around
    them.) *)
Definition get_authorization_scheme_param (value : option string)
  : string * string :=
  match value with
  | None => (EmptyString, EmptyString)
  | Some v =>
      if truthy v
      then let '(sch, _, param) := partition " " v in (sch, param)
      else (EmptyString, EmptyString)
  end.

(** [binascii]'s decoding table: the value of a base64 digit. *)
Definition table_a2b_base64 (c : ascii) : option N :=
  let n := N_of_ascii c in
  if ((65 <=? n) && (n <=? 90))%N then Some (n - 65)%N
  else if ((97 <=? n) && (n <=? 122))%N then Some (n - 71)%N
  else if ((48 <=? n) && (n <=? 57))%N then Some (n + 4)%N
  else if (n =? 43)%N then Some 62%N
  else if (n =? 47)%N then Some 63%N
  else None.

Definition emit (byte : N) (rest : option string) : option string :=
  option_map (String (ascii_of_N byte)) rest.

(** [binascii.a2b_base64] without [strict_mode]: characters outside the
    alphabet are skipped, a pad that completes a quad ends the input, and an
    unfinished quad at the end is a [binascii.Error] ([None]). *)
Fixpoint a2b_base64 (data : string) (quad_pos : nat) (leftchar : N) (pads : nat)
  : option string :=
  match data with
  | EmptyString =>
      match quad_pos with
      | O => Some EmptyString
      | S _ => None
      end
  | String ch rest =>
      if Ascii.eqb ch "="
      then
        if (2 <=? quad_pos)%nat
        then if (4 <=? quad_pos + S pads)%nat
             then Some EmptyString
             else a2b_base64 rest quad_pos leftchar (S pads)
        else a2b_base64 rest quad_pos leftchar pads
      else
        match table_a2b_base64 ch with
        | None => a2b_base64 rest quad_pos leftchar pads
        | Some v =>
            match quad_pos with
            | 0%nat => a2b_base64 rest 1 v 0
            | 1%nat =>
                emit (N.lor (N.shiftl leftchar 2) (N.shiftr v 4))
                     (a2b_base64 rest 2 (N.land v 15) 0)
            | 2%nat =>
                emit (N.lor (N.shiftl leftchar 4) (N.shiftr v 2))
                     (a2b_base64 rest 3 (N.land v 3) 0)
            | _ =>
                emit (N.lor (N.shiftl leftchar 6) v)
                     (a2b_base64 rest 0 0 0)
            end
        end
  end.

(** [base64.b64decode(s)] on a [str]: a [ValueError] ([None]) when [s] is not
    ASCII, [binascii.a2b_base64] otherwise. *)
Definition b64decode (s : string) : option string :=
  if isascii s then a2b_base64 s 0 0 0 else None.

(** [bytes.decode("ascii")]: a [UnicodeDecodeError] ([None]) on a byte above
    127. *)
Definition decode_ascii (b : string) : option string :=
  if isascii b then Some b else None.

(** The exception [HTTPBasic] raises for an [Authorization: Basic] header it
    cannot turn into a pair, whatever [auto_error] says.  (Releases before
    0.122 word the detail "Invalid authentication credentials".) *)
Definition basic_not_authenticated : exn :=
  HTTPError (mkHTTPException HTTP_401_UNAUTHORIZED "Not authenticated" WWW_Basic).

(** [basic_auth = HTTPBasic(auto_error=False)]: [None] without a [Basic]
    header; otherwise the decoded pair, or the exception above when the
    payload is not base64, not ASCII, or has no colon. *)
Definition basic_auth (request : Request)
  : outcome (option HTTPBasicCredentials) :=
  let authorization := header_authorization request in
  let '(sch, param) := get_authorization_scheme_param authorization in
  if negb (opt_truthy authorization) || negb (String.eqb (lower sch) "basic")
  then Returned None
  else
    match b64decode param with
    | None => Raised basic_not_authenticated
    | Some bytes =>
        match decode_ascii bytes with
        | None => Raised basic_not_authenticated
        | Some data =>
            let '(user, separator, pass) := partition ":" data in
            if negb (truthy separator)
            then Raised basic_not_authenticated
            else Returned (Some (mkBasic user pass))
        end
    end.

(** [bearer_auth = HTTPBearer(auto_error=False)]: [None] unless the header has
    a scheme and a parameter and the scheme is [bearer] in some casing. *)
Definition bearer_auth (request : Request)
  : option HTTPAuthorizationCredentials :=
  let authorization := header_authorization request in
  let '(sch, cred) := get_authorization_scheme_param authorization in
  if negb (opt_truthy authorization && truthy sch && truthy cred)
  then None
  else if negb (String.eqb (lower sch) "bearer")
  then None
  else Some (mkAuthorization sch cred).

(** [api_key_header_auth = APIKeyHeader(name="x-api-key", auto_error=False)]. *)
Definition api_key_header_auth (request : Request) : option string :=
  let api_key := header_x_api_key request in
  if negb (opt_truthy api_key) then None else api_key.

(** [api_key_cookie_auth = APIKeyCookie(name="session_token", auto_error=False)]. *)
Definition api_key_cookie_auth (request : Request) : option string :=
  let api_key := cookie_session_token request in
  if negb (opt_truthy api_key) then None else api_key.

(** [oauth2_auth = OAuth2PasswordBearer(tokenUrl="/oauth/token")], with
    [auto_error] left at [True]: the class itself answers a missing or
    non-bearer header. *)
Definition oauth2_auth (request : Request) : outcome string :=
  let authorization := header_authorization request in
  let '(sch, param) := get_authorization_scheme_param authorization in
  if negb (opt_truthy authorization) || negb (String.eqb (lower sch) "bearer")
  then Raised (HTTPError
                 (mkHTTPException HTTP_401_UNAUTHORIZED "Not authenticated"
                    WWW_Bearer))
  else Returned param.

(** ** The strategies: a dependency on top of its security class

    [Depends(require_x)] with the sub-dependency [Depends(x_auth)] resolved on
    the same request. *)

Definition basic_strategy (request : Request) : M HTTPBasicCredentials :=
  creds <- lift (basic_auth request) ;;
  require_basic_auth creds.

Definition bearer_strategy (request : Request) : M string :=
  require_bearer_token (bearer_auth request).

Definition api_key_header_strategy (request : Request) : M string :=
  require_api_key_header (api_key_header_auth request).

Definition session_cookie_strategy (request : Request) : M string :=
  require_session_cookie (api_key_cookie_auth request).

Definition oauth2_strategy (request : Request) : M string :=
  token <- lift (oauth2_auth request) ;;
  require_oauth2_token token.

Definition hybrid_strategy (request : Request) : M string :=
  require_bearer_or_api_key (bearer_auth request) (api_key_header_auth request).

(** ** Response models and payloads (app.py, lines 20-123) *)

Inductive TransportType : Type := bus | tram | metro.

Inductive Severity : Type := low | medium | high.

(** A [datetime] in UTC. *)
Record datetime : Type := mkDatetime {
  year : Z; month : Z; day : Z; hour : Z; minute : Z
}.

Record HealthOut : Type := mkHealthOut {
  health_status : string;
  health_time : datetime
}.

Record RouteOut : Type := mkRouteOut {
  route_id : string;
  route_name : string;
  route_city : string;
  transport_type : TransportType;
  active_stops : Z
}.

Record RouteSearchOut : Type := mkRouteSearchOut {
  total : nat;
  items : list RouteOut
}.

Record CreateDepotIn : Type := mkCreateDepotIn {
  depot_in_name : string;
  depot_in_city : string;
  depot_in_max_vehicles : Z
}.

Record DepotOut : Type := mkDepotOut {
  depot_id : string;
  depot_name : string;
  depot_city : string;
  max_vehicles : Z
}.

Record SessionLoginIn : Type := mkSessionLoginIn {
  login_username : string;
  login_password : string
}.

Record SessionLoginOut : Type := mkSessionLoginOut {
  message : string
}.

Record TokenOut : Type := mkTokenOut {
  access_token : string;
  token_type : string
}.

Record ProfileOut : Type := mkProfileOut {
  subject : string;
  auth_method : string
}.

Inductive IncidentStatus : Type := open | mitigated.

Record IncidentOut : Type := mkIncidentOut {
  incident_id : string;
  incident_route_id : string;
  severity : Severity;
  reported_at : datetime;
  incident_status : IncidentStatus
}.

Record DispatchIn : Type := mkDispatchIn {
  dispatch_in_vehicle_id : string;
  dispatch_in_route_id : string;
  dispatch_in_departs_at : datetime;
  driver_notes : option string
}.

(** [status] of a [DispatchOut] is the literal ["scheduled"]. *)
Record DispatchOut : Type := mkDispatchOut {
  dispatch_id : string;
  vehicle_id : string;
  dispatch_route_id : string;
  departs_at : datetime;
  dispatch_status : string
}.

Record AlertOut : Type := mkAlertOut {
  alert_id : string;
  level : Severity;
  alert_message : string
}.

(** [OAuth2PasswordRequestForm], the two fields the endpoint reads. *)
Record OAuth2PasswordRequestForm : Type := mkForm {
  form_username : string;
  form_password : string
}.

(** One [Set-Cookie] of a [Response]. *)
Record Cookie : Type := mkCookie {
  cookie_key : string;
  cookie_value : string;
  httponly : bool;
  samesite : string
}.

(** The injected [Response], as far as [set_cookie] changes it. *)
Record Response : Type := mkResponse {
  cookies : list Cookie
}.

Definition set_cookie (r : Response) (c : Cookie) : Response :=
  mkResponse (cookies r ++ [c])%list.

(** ** Module-level state (app.py, lines 136-151)

    [route_store] is the one mutable object of the module, a [dict] in
    insertion order. *)

Definition RouteStore : Type := list (string * RouteOut).

Definition route_store : RouteStore :=
  [ ("route-1", mkRouteOut "route-1" "North Loop" "Helsinki" tram 18);
    ("route-2", mkRouteOut "route-2" "Airport Express" "Helsinki" bus 7) ].

(** [dict.get]. *)
Fixpoint store_get (store : RouteStore) (key : string) : option RouteOut :=
  match store with
  | [] => None
  | (k, v) :: rest => if String.eqb k key then Some v else store_get rest key
  end.

Definition TransportType_eqb (a b : TransportType) : bool :=
  match a, b with
  | bus, bus | tram, tram | metro, metro => true
  | _, _ => false
  end.

(** ** Handlers (app.py, lines 261-403) *)

Definition health (now : datetime) : HealthOut := mkHealthOut "ok" now.

Definition list_routes (store : RouteStore) (city : option string)
  (ttype : option TransportType) (limit offset : nat) : RouteSearchOut :=
  let routes := map snd store in
  let routes :=
    match city with
    | None => routes
    | Some c =>
        filter (fun r => String.eqb (lower (route_city r)) (lower c)) routes
    end in
  let routes :=
    match ttype with
    | None => routes
    | Some t => filter (fun r => TransportType_eqb (transport_type r) t) routes
    end in
  let paged := firstn limit (skipn offset routes) in
  mkRouteSearchOut (length routes) paged.

Definition get_route (store : RouteStore) (id : string) : M RouteOut :=
  match store_get store id with
  | None => raise_http HTTP_404_NOT_FOUND "Route not found." []
  | Some route => ret route
  end.

Definition create_depot (payload : CreateDepotIn)
  (_credentials : HTTPBasicCredentials) : DepotOut :=
  mkDepotOut "depot-1" (depot_in_name payload) (depot_in_city payload)
    (depot_in_max_vehicles payload).

Definition bearer_profile (_token : string) : ProfileOut :=
  mkProfileOut "operator-41" "bearer".

Definition header_key_metrics (store : RouteStore) (_key : string)
  : list (string * Z) :=
  [ ("active_routes", Z.of_nat (length store)); ("active_vehicles", 112%Z) ].

(** [session_login]: the [or] of the two native comparisons skips the second
    when the first is true; the cookie is set only past the [raise]. *)
Definition session_login (payload : SessionLoginIn) (response : Response)
  : M (SessionLoginOut * Response) :=
  wrong_user <- str_ne (login_username payload) DEMO_BASIC_USERNAME ;;
  wrong <- (if wrong_user then ret true
            else str_ne (login_password payload) DEMO_BASIC_PASSWORD) ;;
  if wrong
  then raise_http HTTP_401_UNAUTHORIZED "Invalid credentials." []
  else
    let response :=
      set_cookie response (mkCookie "session_token" DEMO_SESSION_TOKEN true "lax") in
    ret (mkSessionLoginOut "Session cookie issued.", response).

Definition cookie_incidents (_cookie : string) : list IncidentOut :=
  [ mkIncidentOut "inc-1" "route-1" medium (mkDatetime 2026 3 1 7 30) open ].

(** [oauth_token]: same shape as [session_login], on the OAuth pair. *)
Definition oauth_token (form_data : OAuth2PasswordRequestForm) : M TokenOut :=
  wrong_user <- str_ne (form_username form_data) DEMO_OAUTH_USERNAME ;;
  wrong <- (if wrong_user then ret true
            else str_ne (form_password form_data) DEMO_OAUTH_PASSWORD) ;;
  if wrong
  then raise_http HTTP_401_UNAUTHORIZED "Invalid OAuth username/password." []
  else ret (mkTokenOut DEMO_OAUTH_TOKEN "bearer").

Definition oauth_profile (_token : string) : ProfileOut :=
  mkProfileOut "dispatcher-7" "oauth2-password".

Definition create_dispatch (payload : DispatchIn) (_token : string)
  : DispatchOut :=
  mkDispatchOut "dispatch-1" (dispatch_in_vehicle_id payload)
    (dispatch_in_route_id payload) (dispatch_in_departs_at payload) "scheduled".

Definition hybrid_alert (method : string) : AlertOut :=
  mkAlertOut "alert-1" low ("Hybrid-authenticated via " ++ method ++ ".").

(** ** Protected operations: the dependency, then the handler on its result *)

Definition create_depot_operation (request : Request) (payload : CreateDepotIn)
  : M DepotOut :=
  creds <- basic_strategy request ;;
  ret (create_depot payload creds).

Definition bearer_profile_operation (request : Request) : M ProfileOut :=
  token <- bearer_strategy request ;;
  ret (bearer_profile token).

Definition header_key_metrics_operation (store : RouteStore) (request : Request)
  : M (list (string * Z)) :=
  key <- api_key_header_strategy request ;;
  ret (header_key_metrics store key).

Definition cookie_incidents_operation (request : Request)
  : M (list IncidentOut) :=
  cookie <- session_cookie_strategy request ;;
  ret (cookie_incidents cookie).

Definition oauth_profile_operation (request : Request) : M ProfileOut :=
  token <- oauth2_strategy request ;;
  ret (oauth_profile token).

Definition create_dispatch_operation (request : Request) (payload : DispatchIn)
  : M DispatchOut :=
  token <- oauth2_strategy request ;;
  ret (create_dispatch payload token).

Definition hybrid_alert_operation (request : Request) : M AlertOut :=
  method <- hybrid_strategy request ;;
  ret (hybrid_alert method).

(** ** The application as a transition system over its module-level state *)

(** One call of the API: the route and what the framework has parsed for it. *)
Inductive Call : Type :=
| GetHealth (now : datetime)
| GetRoutes (city : option string) (ttype : option TransportType)
    (limit offset : nat)
| GetRoute (id : string)
| PostDepot (request : Request) (payload : CreateDepotIn)
| GetBearerProfile (request : Request)
| GetSystemMetrics (request : Request)
| PostSessionLogin (payload : SessionLoginIn)
| GetIncidents (request : Request)
| PostOAuthToken (form_data : OAuth2PasswordRequestForm)
| GetOAuthProfile (request : Request)
| PostDispatch (request : Request) (payload : DispatchIn)
| GetHybridAlert (request : Request).

(** What a call answers with. *)
Inductive Body : Type :=
| BodyHealth (b : HealthOut)
| BodyRoutes (b : RouteSearchOut)
| BodyRoute (b : RouteOut)
| BodyDepot (b : DepotOut)
| BodyProfile (b : ProfileOut)
| BodyMetrics (b : list (string * Z))
| BodyLogin (b : SessionLoginOut) (r : Response)
| BodyIncidents (b : list IncidentOut)
| BodyToken (b : TokenOut)
| BodyDispatch (b : DispatchOut)
| BodyAlert (b : AlertOut).

Definition fmap {A B} (f : A -> B) (m : M A) : M B :=
  a <- m ;; ret (f a).

(** *** Module-level state

    What app.py binds at module level and a handler could change: the
    [route_store] dictionary (lines 136-151), the eight trust names (lines
    23-30) and the [auto_error] attribute of the five security instances
    (lines 32-44).  The dependencies above read the trust names and the
    instances as the values they are bound to at import. *)

Record Module : Type := mkModule {
  m_route_store : RouteStore;
  m_names : list (string * string);
  m_auto_error : list (string * bool)
}.

(** The module as the import leaves it. *)
Definition startup : Module :=
  mkModule route_store
    [ ("DEMO_BASIC_USERNAME", DEMO_BASIC_USERNAME);
      ("DEMO_BASIC_PASSWORD", DEMO_BASIC_PASSWORD);
      ("DEMO_BEARER_TOKEN", DEMO_BEARER_TOKEN);
      ("DEMO_HEADER_API_KEY", DEMO_HEADER_API_KEY);
      ("DEMO_SESSION_TOKEN", DEMO_SESSION_TOKEN);
      ("DEMO_OAUTH_USERNAME", DEMO_OAUTH_USERNAME);
      ("DEMO_OAUTH_PASSWORD", DEMO_OAUTH_PASSWORD);
      ("DEMO_OAUTH_TOKEN", DEMO_OAUTH_TOKEN) ]
    [ ("basic_auth", false); ("bearer_auth", false);
      ("api_key_header_auth", false); ("api_key_cookie_auth", false);
      ("oauth2_auth", true) ].

(** The accesses a function body can make to that state, with the type of
    what each hands back: the three reads the handlers use, and the writes
    Python offers on the same objects. *)
Inductive Access : Type -> Type :=
| StoreValues : Access (list RouteOut)
| StoreGet (key : string) : Access (option RouteOut)
| StoreLen : Access nat
| StoreSetItem (key : string) (value : RouteOut) : Access unit
| StorePop (key : string) : Access unit
| Rebind (name value : string) : Access unit
| SetAutoError (instance : string) (flag : bool) : Access unit.

(** [d[key] = value]: in place when the key is there, at the end otherwise. *)
Fixpoint assoc_set {V} (d : list (string * V)) (key : string) (value : V)
  : list (string * V) :=
  match d with
  | [] => [(key, value)]
  | (k, v) :: rest =>
      if String.eqb k key then (k, value) :: rest
      else (k, v) :: assoc_set rest key value
  end.

(** [d.pop(key, None)]. *)
Fixpoint assoc_pop {V} (d : list (string * V)) (key : string)
  : list (string * V) :=
  match d with
  | [] => []
  | (k, v) :: rest =>
      if String.eqb k key then rest else (k, v) :: assoc_pop rest key
  end.

(** What an access hands back and the module it leaves. *)
Definition access {X} (op : Access X) (m : Module) : X * Module :=
  match op in Access X return X * Module with
  | StoreValues => (map snd (m_route_store m), m)
  | StoreGet key => (store_get (m_route_store m) key, m)
  | StoreLen => (length (m_route_store m), m)
  | StoreSetItem key value =>
      (tt, mkModule (assoc_set (m_route_store m) key value)
             (m_names m) (m_auto_error m))
  | StorePop key =>
      (tt, mkModule (assoc_pop (m_route_store m) key)
             (m_names m) (m_auto_error m))
  | Rebind name value =>
      (tt, mkModule (m_route_store m) (assoc_set (m_names m) name value)
             (m_auto_error m))
  | SetAutoError instance flag =>
      (tt, mkModule (m_route_store m) (m_names m)
             (assoc_set (m_auto_error m) instance flag))
  end.

(** The access leaves the module alone. *)
Definition is_read {X} (op : Access X) : bool :=
  match op with
  | StoreValues | StoreGet _ | StoreLen => true
  | StoreSetItem _ _ | StorePop _ | Rebind _ _ | SetAutoError _ _ => false
  end.

(** A function body as the accesses it makes, each followed by what it does
    with the value handed back. *)
Inductive Prog (A : Type) : Type :=
| Done (a : A)
| Vis {X : Type} (op : Access X) (k : X -> Prog A).
Arguments Done {A} a.
Arguments Vis {A X} op k.

(** Running a body on a module: its result and the module it leaves. *)
Fixpoint interp {A} (p : Prog A) (m : Module) : A * Module :=
  match p with
  | Done a => (a, m)
  | Vis op k => let '(x, m') := access op m in interp (k x) m'
  end.

(** Every access of the body is a read. *)
Fixpoint read_only {A} (p : Prog A) : Prop :=
  match p with
  | Done _ => True
  | Vis op k => is_read op = true /\ forall x, read_only (k x)
  end.

(** *** The twelve routes, with their accesses to the module

    Each body is the handler of app.py, its dependency resolved first; where
    the source names [route_store] the body makes the access. *)

(** [GET /public/health]. *)
Definition health_route (now : datetime) : Prog (M Body) :=
  Done (ret (BodyHealth (health now))).

(** [GET /public/routes]: [routes = list(route_store.values())], then the
    two filters and the slice. *)
Definition list_routes_route (city : option string)
  (ttype : option TransportType) (limit offset : nat) : Prog (M Body) :=
  Vis StoreValues (fun routes =>
    let routes :=
      match city with
      | None => routes
      | Some c =>
          filter (fun r => String.eqb (lower (route_city r)) (lower c)) routes
      end in
    let routes :=
      match ttype with
      | None => routes
      | Some t =>
          filter (fun r => TransportType_eqb (transport_type r) t) routes
      end in
    let paged := firstn limit (skipn offset routes) in
    Done (ret (BodyRoutes (mkRouteSearchOut (length routes) paged)))).

(** [GET /public/routes/{route_id}]: [route = route_store.get(route_id)]. *)
Definition get_route_route (id : string) : Prog (M Body) :=
  Vis (StoreGet id) (fun route =>
    Done (match route with
          | None => raise_http HTTP_404_NOT_FOUND "Route not found." []
          | Some route => ret (BodyRoute route)
          end)).

(** [POST /basic/admin/depots]. *)
Definition create_depot_route (request : Request) (payload : CreateDepotIn)
  : Prog (M Body) :=
  Done (fmap BodyDepot (create_depot_operation request payload)).

(** [GET /bearer/operators/me]. *)
Definition bearer_profile_route (request : Request) : Prog (M Body) :=
  Done (fmap BodyProfile (bearer_profile_operation request)).

(** [GET /apikey-header/system-metrics]: the dependency, then
    [len(route_store)] when it returned. *)
Definition header_key_metrics_route (request : Request) : Prog (M Body) :=
  match api_key_header_strategy request with
  | (t, Returned _key) =>
      Vis StoreLen (fun n =>
        Done (t, Returned (BodyMetrics [ ("active_routes", Z.of_nat n);
                                         ("active_vehicles", 112%Z) ])))
  | (t, Raised e) => Done (t, Raised e)
  end.

(** [POST /session/login], on a fresh [Response]. *)
Definition session_login_route (payload : SessionLoginIn) : Prog (M Body) :=
  Done (fmap (fun '(out, r) => BodyLogin out r)
          (session_login payload (mkResponse []))).

(** [GET /apikey-cookie/incidents]. *)
Definition cookie_incidents_route (request : Request) : Prog (M Body) :=
  Done (fmap BodyIncidents (cookie_incidents_operation request)).

(** [POST /oauth/token]. *)
Definition oauth_token_route (form_data : OAuth2PasswordRequestForm)
  : Prog (M Body) :=
  Done (fmap BodyToken (oauth_token form_data)).

(** [GET /oauth/profile]. *)
Definition oauth_profile_route (request : Request) : Prog (M Body) :=
  Done (fmap BodyProfile (oauth_profile_operation request)).

(** [POST /oauth/dispatches]. *)
Definition create_dispatch_route (request : Request) (payload : DispatchIn)
  : Prog (M Body) :=
  Done (fmap BodyDispatch (create_dispatch_operation request payload)).

(** [GET /hybrid/alerts]. *)
Definition hybrid_alert_route (request : Request) : Prog (M Body) :=
  Done (fmap BodyAlert (hybrid_alert_operation request)).

(** The body a call runs. *)
Definition route_of (call : Call) : Prog (M Body) :=
  match call with
  | GetHealth now => health_route now
  | GetRoutes city ttype limit offset =>
      list_routes_route city ttype limit offset
  | GetRoute id => get_route_route id
  | PostDepot request payload => create_depot_route request payload
  | GetBearerProfile request => bearer_profile_route request
  | GetSystemMetrics request => header_key_metrics_route request
  | PostSessionLogin payload => session_login_route payload
  | GetIncidents request => cookie_incidents_route request
  | PostOAuthToken form_data => oauth_token_route form_data
  | GetOAuthProfile request => oauth_profile_route request
  | PostDispatch request payload => create_dispatch_route request payload
  | GetHybridAlert request => hybrid_alert_route request
  end.

(** One call on the current module: the answer and the module it leaves. *)
Definition serve (m : Module) (call : Call) : M Body * Module :=
  interp (route_of call) m.

(** A sequence of calls, each on the module the previous one left. *)
Fixpoint serve_all (m : Module) (calls : list Call)
  : list (M Body) * Module :=
  match calls with
  | [] => ([], m)
  | call :: rest =>
      let '(answer, m') := serve m call in
      let '(answers, m'') := serve_all m' rest in
      (answer :: answers, m'')
  end.

(** ** Vocabulary of the statements *)

(** The event is a call of [secrets.compare_digest]. *)
Definition is_compare_digest (e : Event) : bool :=
  match e with
  | CompareDigest _ _ => true
  | NativeNe _ _ => false
  end.

(** The failure an [HTTPException] describes, as the client sees it. *)
Definition failure (code : Z) (msg : string) (hs : list (string * string))
  : exn :=
  HTTPError (mkHTTPException code msg hs).

(** The value of the [WWW-Authenticate] header of an exception, if any. *)
Fixpoint challenge_of (hs : list (string * string)) : option string :=
  match hs with
  | [] => None
  | (k, v) :: rest =>
      if String.eqb k "WWW-Authenticate" then Some v else challenge_of rest
  end.

(** Status and challenge of what a strategy raised; a [TypeError] is no
    authentication failure and has neither. *)
Definition status_and_challenge {A} (o : outcome A) : option (Z * option string) :=
  match o with
  | Raised (HTTPError e) => Some (status_code e, challenge_of (headers e))
  | _ => None
  end.

(** The bearer side of a request falls through without raising: no
    credentials, or an ASCII token other than the trusted one. *)
Definition bearer_falls_through (creds : option HTTPAuthorizationCredentials)
  : Prop :=
  match creds with
  | None => True
  | Some c =>
      lower (scheme c) <> "bearer"
      \/ (isascii (credentials c) = true /\ credentials c <> DEMO_BEARER_TOKEN)
  end.

(** A strategy's outcome is a success, or the authentication failure with
    this status and exactly these headers. *)
Definition succeeds_or_fails_with {A} (o : outcome A) (code : Z)
  (hs : list (string * string)) : Prop :=
  match o with
  | Returned _ => True
  | Raised (HTTPError e) => status_code e = code /\ headers e = hs
  | Raised TypeError => False
  end.

Definition opt_isascii (o : option string) : bool :=
  match o with
  | None => true
  | Some s => isascii s
  end.

(** Every header and cookie the security classes read is ASCII. *)
Definition ascii_request (request : Request) : bool :=
  opt_isascii (header_authorization request)
  && opt_isascii (header_x_api_key request)
  && opt_isascii (cookie_session_token request).

(** The payload of an [Authorization: Basic] header does not decode: it is
    not base64, or its bytes are not ASCII. *)
Definition undecodable (param : string) : bool :=
  match b64decode param with
  | None => true
  | Some bytes => negb (isascii bytes)
  end.

(** The API-key side of a request falls through without raising: no key, an
    empty one, or an ASCII key other than the trusted one. *)
Definition api_key_falls_through (x_api_key : option string) : Prop :=
  match x_api_key with
  | None => True
  | Some k =>
      k = EmptyString \/ (isascii k = true /\ k <> DEMO_HEADER_API_KEY)
  end.

(** [char_upper c] is the capital of the letter [c] (a-z), [c] otherwise. *)
Definition char_upper (c : ascii) : ascii :=
  let n := N_of_ascii c in
  if ((97 <=? n) && (n <=? 122))%N then ascii_of_N (n - 32) else c.

(** [s] is [t] with some of its letters capitalised. *)
Fixpoint is_casing_of (s t : string) : bool :=
  match s, t with
  | EmptyString, EmptyString => true
  | String a s', String b t' =>
      (Ascii.eqb a b || Ascii.eqb a (char_upper b)) && is_casing_of s' t'
  | _, _ => false
  end.

(** The cookie [session_login] sets. *)
Definition issued_cookie : Cookie :=
  mkCookie "session_token" DEMO_SESSION_TOKEN true "lax".

(** The one non-ASCII character used in the examples, U+00E9. *)
Definition e_acute : string := String "233" EmptyString.

(** The route passes the two optional filters of [list_routes]: the city
    compared in lower case, the transport type exactly. *)
Definition route_matches (city : option string) (ttype : option TransportType)
  (r : RouteOut) : bool :=
  match city with
  | None => true
  | Some c => String.eqb (lower (route_city r)) (lower c)
  end
  && match ttype with
     | None => true
     | Some t => TransportType_eqb (transport_type r) t
     end.

(** The store is a [dict] (no key twice) whose keys are the [route_id] of
    their routes, as [route_store] is built. *)
Definition keyed_by_route_id (store : RouteStore) : Prop :=
  NoDup (map fst store)
  /\ Forall (fun entry => route_id (snd entry) = fst entry) store.

(** The exception of [get_route] for an unknown id. *)
Definition route_not_found : exn :=
  HTTPError (mkHTTPException HTTP_404_NOT_FOUND "Route not found." []).

(** The character occurs in the string. *)
Fixpoint contains (c : ascii) (s : string) : bool :=
  match s with
  | EmptyString => false
  | String a rest => Ascii.eqb a c || contains c rest
  end.

(** The outcome is no [HTTPException], or one with this status and exactly
    these headers. *)
Definition no_failure_but {A} (o : outcome A) (code : Z)
  (hs : list (string * string)) : Prop :=
  match o with
  | Raised (HTTPError e) => status_code e = code /\ headers e = hs
  | _ => True
  end.

(** * Properties *)

Local Open Scope Z_scope.

(** ** Strings and digests *)

Lemma isascii_app (a b : string) :
  isascii (a ++ b) = isascii a && isascii b.
Proof.
  induction a as [|c a IH]; simpl; [reflexivity|].
  now rewrite IH, andb_assoc.
Qed.

(** The three parts of a partition of an ASCII string are ASCII. *)
Lemma partition_isascii (sep : ascii) (s : string) :
  isascii s = true ->
  let '(before, found, after) := partition sep s in
  isascii before = true /\ isascii after = true.
Proof.
  induction s as [|c s IH]; simpl; intros H; [now split|].
  apply andb_true_iff in H as [Hc Hs].
  destruct (Ascii.eqb c sep); [now split|].
  specialize (IH Hs).
  destruct (partition sep s) as [[before found] after].
  destruct IH as [Hb Ha]. simpl. now rewrite Hc, Hb.
Qed.

(** On ASCII arguments [compare_digest] is string equality. *)
Lemma compare_digest_ascii (a b : string) :
  isascii a = true -> isascii b = true ->
  compare_digest a b = ([CompareDigest a b], Returned (String.eqb a b)).
Proof.
  intros Ha Hb. unfold compare_digest. now rewrite Ha, Hb.
Qed.

(** On a non-ASCII first argument it raises. *)
Lemma compare_digest_non_ascii (a b : string) :
  isascii a = false ->
  compare_digest a b = ([CompareDigest a b], Raised TypeError).
Proof.
  intros Ha. unfold compare_digest. now rewrite Ha.
Qed.

(** It returns [true] only on equal strings. *)
Lemma compare_digest_true (a b : string) :
  run (compare_digest a b) = Returned true -> a = b.
Proof.
  unfold compare_digest, run. simpl.
  destruct (isascii a && isascii b); [|discriminate].
  intros H. injection H as H. now apply String.eqb_eq.
Qed.

(** Reduces the monad's plumbing and nothing else. *)
Ltac msimpl :=
  cbn [bind ret raise raise_http lift run trace fst snd negb andb orb app].

(** Rewrites one digest of an ASCII string against a closed constant. *)
Ltac digest H :=
  match type of H with
  | isascii ?a = true =>
      match goal with
      | |- context [compare_digest a ?b] =>
          rewrite (compare_digest_ascii a b H eq_refl)
      end
  end.

(** ** The hybrid dependency *)

(** A valid bearer token wins whatever the API key is, and the key is not
    even compared. *)
Lemma hybrid_bearer_first (sch : string) (x_api_key : option string) :
  lower sch = "bearer" ->
  require_bearer_or_api_key
    (Some (mkAuthorization sch DEMO_BEARER_TOKEN)) x_api_key
  = ([CompareDigest DEMO_BEARER_TOKEN DEMO_BEARER_TOKEN], Returned "bearer").
Proof.
  intros H. unfold require_bearer_or_api_key, try_bearer.
  cbn [scheme credentials]. rewrite H. reflexivity.
Qed.

Lemma try_bearer_falls_through (creds : option HTTPAuthorizationCredentials) :
  bearer_falls_through creds -> run (try_bearer creds) = Returned None.
Proof.
  destruct creds as [c|]; [|reflexivity].
  unfold try_bearer, bearer_falls_through.
  destruct (String.eqb_spec (lower (scheme c)) "bearer") as [E|E];
    intros [H|[Ha Hn]]; try contradiction; try reflexivity.
  digest Ha. msimpl.
  destruct (String.eqb_spec (credentials c) DEMO_BEARER_TOKEN);
    [contradiction | reflexivity].
Qed.

(** With the bearer side falling through, the trusted API key authenticates
    as "api_key_header". *)
Lemma hybrid_api_key_second (creds : option HTTPAuthorizationCredentials) :
  bearer_falls_through creds ->
  run (require_bearer_or_api_key creds (Some DEMO_HEADER_API_KEY))
  = Returned "api_key_header".
Proof.
  intros H. apply try_bearer_falls_through in H.
  unfold require_bearer_or_api_key.
  destruct (try_bearer creds) as [t o]. unfold run in H. simpl in H. subst o.
  reflexivity.
Qed.

(** C1. The hybrid dependency answers "bearer" when both credentials are
    valid, and is claimed to answer "api_key_header" whenever the bearer token
    is absent or invalid and the API key is the trusted one.  On a bearer
    token holding a non-ASCII character the digest of the bearer side raises
    [TypeError] before the API key is looked at, so the request with the
    trusted key is not authenticated. *)
Theorem hybrid_non_ascii_bearer_raises :
  let request :=
    mkRequest (Some ("Bearer " ++ e_acute)) (Some DEMO_HEADER_API_KEY) None in
  bearer_auth request = Some (mkAuthorization "Bearer" e_acute)
  /\ api_key_header_auth request = Some DEMO_HEADER_API_KEY
  /\ hybrid_strategy request
     = ([CompareDigest e_acute DEMO_BEARER_TOKEN], Raised TypeError).
Proof.
  repeat split; reflexivity.
Qed.

(** ** What each dependency answers, in closed form *)

Ltac by_cases :=
  unfold compare_digest; msimpl;
  repeat match goal with
    | |- context [isascii ?a] =>
        first [ change (isascii a) with true
              | destruct (isascii a) eqn:? ]; msimpl
    | |- context [String.eqb ?a ?b] => destruct (String.eqb a b) eqn:?
    end;
  try reflexivity.

Lemma require_bearer_token_run (creds : option HTTPAuthorizationCredentials) :
  run (require_bearer_token creds)
  = match creds with
    | None => Raised (failure 401 "Missing bearer token." WWW_Bearer)
    | Some c =>
        if negb (String.eqb (lower (scheme c)) "bearer")
        then Raised (failure 401 "Missing bearer token." WWW_Bearer)
        else if isascii (credentials c)
        then if String.eqb (credentials c) DEMO_BEARER_TOKEN
             then Returned (credentials c)
             else Raised (failure 401 "Invalid bearer token." WWW_Bearer)
        else Raised TypeError
    end.
Proof.
  destruct creds as [c|]; [|reflexivity].
  unfold require_bearer_token.
  destruct (negb (String.eqb (lower (scheme c)) "bearer")); [reflexivity|].
  by_cases.
Qed.

Lemma require_api_key_header_run (x_api_key : option string) :
  run (require_api_key_header x_api_key)
  = match x_api_key with
    | None => Raised (failure 403 "Missing x-api-key header." [])
    | Some k =>
        if isascii k
        then if String.eqb k DEMO_HEADER_API_KEY
             then Returned k
             else Raised (failure 403 "Invalid x-api-key header." [])
        else Raised TypeError
    end.
Proof.
  destruct x_api_key as [k|]; [|reflexivity].
  unfold require_api_key_header. by_cases.
Qed.

Lemma require_session_cookie_run (session_token : option string) :
  run (require_session_cookie session_token)
  = match session_token with
    | None => Raised (failure 403 "Missing session_token cookie." [])
    | Some t =>
        if isascii t
        then if String.eqb t DEMO_SESSION_TOKEN
             then Returned t
             else Raised (failure 403 "Invalid session_token cookie." [])
        else Raised TypeError
    end.
Proof.
  destruct session_token as [t|]; [|reflexivity].
  unfold require_session_cookie. by_cases.
Qed.

Lemma require_oauth2_token_run (token : string) :
  run (require_oauth2_token token)
  = if isascii token
    then if String.eqb token DEMO_OAUTH_TOKEN
         then Returned token
         else Raised (failure 401 "Invalid OAuth2 access token." WWW_Bearer)
    else Raised TypeError.
Proof.
  unfold require_oauth2_token. by_cases.
Qed.

(** On a pair of ASCII strings [require_basic_auth] takes both digests and
    accepts exactly the trusted pair. *)
Lemma require_basic_auth_ascii (c : HTTPBasicCredentials) :
  isascii (username c) = true -> isascii (password c) = true ->
  require_basic_auth (Some c)
  = ([CompareDigest (username c) DEMO_BASIC_USERNAME;
      CompareDigest (password c) DEMO_BASIC_PASSWORD],
     if String.eqb (username c) DEMO_BASIC_USERNAME
        && String.eqb (password c) DEMO_BASIC_PASSWORD
     then Returned c
     else Raised (failure 401 "Invalid basic authentication credentials."
                    WWW_Basic)).
Proof.
  intros Hu Hp. unfold require_basic_auth.
  digest Hu. digest Hp. msimpl.
  destruct (String.eqb (username c) DEMO_BASIC_USERNAME);
    destruct (String.eqb (password c) DEMO_BASIC_PASSWORD); reflexivity.
Qed.

(** A non-ASCII user name stops [require_basic_auth] at its first digest. *)
Lemma require_basic_auth_non_ascii (c : HTTPBasicCredentials) :
  isascii (username c) = false ->
  require_basic_auth (Some c)
  = ([CompareDigest (username c) DEMO_BASIC_USERNAME], Raised TypeError).
Proof.
  intros Hu. unfold require_basic_auth.
  rewrite (compare_digest_non_ascii _ _ Hu). reflexivity.
Qed.

(** ** What the security classes hand over *)

(** [HTTPBasic] only hands over ASCII pairs. *)
Lemma basic_auth_isascii (request : Request) (c : HTTPBasicCredentials) :
  basic_auth request = Returned (Some c) ->
  isascii (username c) = true /\ isascii (password c) = true.
Proof.
  unfold basic_auth.
  destruct (get_authorization_scheme_param (header_authorization request))
    as [sch param].
  destruct (negb (opt_truthy (header_authorization request))
            || negb (String.eqb (lower sch) "basic")); [discriminate|].
  destruct (b64decode param) as [bytes|]; [|discriminate].
  unfold decode_ascii. destruct (isascii bytes) eqn:Hb; [|discriminate].
  pose proof (partition_isascii ":" bytes Hb) as P.
  destruct (partition ":" bytes) as [[user separator] pass].
  destruct (negb (truthy separator)); [discriminate|].
  intros H. injection H as <-. exact P.
Qed.

(** What [HTTPBasic] raises is always the same 401 with the Basic challenge. *)
Lemma basic_auth_raises (request : Request) (e : exn) :
  basic_auth request = Raised e -> e = basic_not_authenticated.
Proof.
  unfold basic_auth.
  destruct (get_authorization_scheme_param (header_authorization request))
    as [sch param].
  destruct (negb (opt_truthy (header_authorization request))
            || negb (String.eqb (lower sch) "basic")); [discriminate|].
  destruct (b64decode param) as [bytes|]; [|congruence].
  destruct (decode_ascii bytes) as [data|]; [|congruence].
  destruct (partition ":" data) as [[user separator] pass].
  destruct (negb (truthy separator)); congruence.
Qed.

(** [HTTPBearer] only hands over a scheme that lowers to "bearer". *)
Lemma bearer_auth_scheme (request : Request) (c : HTTPAuthorizationCredentials) :
  bearer_auth request = Some c -> lower (scheme c) = "bearer".
Proof.
  unfold bearer_auth.
  destruct (get_authorization_scheme_param (header_authorization request))
    as [sch cred].
  destruct (negb (opt_truthy (header_authorization request)
                  && truthy sch && truthy cred)); [discriminate|].
  destruct (String.eqb_spec (lower sch) "bearer") as [E|E]; [|discriminate].
  intros H. injection H as <-. exact E.
Qed.

(** Without an [Authorization] header the three classes that read it find
    nothing. *)
Lemma no_authorization_header (request : Request) :
  header_authorization request = None ->
  basic_auth request = Returned None
  /\ bearer_auth request = None
  /\ oauth2_auth request
     = Raised (failure 401 "Not authenticated" WWW_Bearer).
Proof.
  intros H. unfold basic_auth, bearer_auth, oauth2_auth. rewrite H.
  repeat split; reflexivity.
Qed.

(** The two halves of an ASCII [Authorization] header are ASCII. *)
Lemma scheme_param_isascii (value : option string) :
  opt_isascii value = true ->
  let '(sch, param) := get_authorization_scheme_param value in
  isascii sch = true /\ isascii param = true.
Proof.
  destruct value as [v|]; simpl; [|now split].
  intros H. destruct (truthy v); [|now split].
  pose proof (partition_isascii " " v H) as P.
  destruct (partition " " v) as [[sch found] param]. exact P.
Qed.

(** ** The strategies on a request *)

Lemma basic_strategy_closed (request : Request) :
  basic_strategy request
  = match basic_auth request with
    | Returned None =>
        ([], Raised (failure 401 "Missing basic authentication credentials."
                       WWW_Basic))
    | Returned (Some c) =>
        ([CompareDigest (username c) DEMO_BASIC_USERNAME;
          CompareDigest (password c) DEMO_BASIC_PASSWORD],
         if String.eqb (username c) DEMO_BASIC_USERNAME
            && String.eqb (password c) DEMO_BASIC_PASSWORD
         then Returned c
         else Raised (failure 401 "Invalid basic authentication credentials."
                        WWW_Basic))
    | Raised e => ([], Raised basic_not_authenticated)
    end.
Proof.
  unfold basic_strategy.
  destruct (basic_auth request) as [[c|]|e] eqn:E; msimpl.
  - destruct (basic_auth_isascii _ _ E) as [Hu Hp].
    rewrite (require_basic_auth_ascii c Hu Hp). reflexivity.
  - reflexivity.
  - now rewrite (basic_auth_raises _ _ E).
Qed.

(** The Basic strategy never ends in a [TypeError]: it authenticates, or fails
    with 401 and the Basic challenge. *)
Lemma basic_strategy_fails_with (request : Request) :
  succeeds_or_fails_with (run (basic_strategy request)) 401 WWW_Basic.
Proof.
  rewrite basic_strategy_closed.
  destruct (basic_auth request) as [[c|]|e]; msimpl.
  - destruct (_ && _); simpl; auto.
  - simpl; auto.
  - simpl; auto.
Qed.

Lemma oauth2_strategy_run (request : Request) :
  run (oauth2_strategy request)
  = match oauth2_auth request with
    | Returned token => run (require_oauth2_token token)
    | Raised e => Raised e
    end.
Proof.
  unfold oauth2_strategy.
  destruct (oauth2_auth request) as [token|e]; msimpl; [|reflexivity].
  destruct (require_oauth2_token token) as [t o]. reflexivity.
Qed.

(** Whatever [HTTPException] a strategy raises has the status and the headers
    of the failure table: 401 with the scheme's challenge for Basic, Bearer
    and OAuth2Password, 403 without any header for the two API-key schemes. *)
Lemma raised_failures_follow_the_table (request : Request) (e : HTTPException) :
  (run (basic_strategy request) = Raised (HTTPError e) ->
   status_code e = 401 /\ headers e = WWW_Basic)
  /\ (run (bearer_strategy request) = Raised (HTTPError e) ->
      status_code e = 401 /\ headers e = WWW_Bearer)
  /\ (run (oauth2_strategy request) = Raised (HTTPError e) ->
      status_code e = 401 /\ headers e = WWW_Bearer)
  /\ (run (api_key_header_strategy request) = Raised (HTTPError e) ->
      status_code e = 403 /\ headers e = [])
  /\ (run (session_cookie_strategy request) = Raised (HTTPError e) ->
      status_code e = 403 /\ headers e = []).
Proof.
  split; [|split; [|split; [|split]]]; intros E.
  - pose proof (basic_strategy_fails_with request) as H.
    rewrite E in H. exact H.
  - revert E. unfold bearer_strategy. rewrite require_bearer_token_run.
    destruct (bearer_auth request) as [c|];
      [ destruct (negb _); [|destruct (isascii _); [destruct (String.eqb _ _)|]]
      | ]; intros E; inversion E; split; reflexivity.
  - revert E. rewrite oauth2_strategy_run. unfold oauth2_auth.
    destruct (get_authorization_scheme_param _) as [sch param].
    destruct (_ || _);
      [ | rewrite require_oauth2_token_run;
          destruct (isascii _); [destruct (String.eqb _ _)|] ];
      intros E; inversion E; split; reflexivity.
  - revert E. unfold api_key_header_strategy.
    rewrite require_api_key_header_run.
    destruct (api_key_header_auth request) as [k|];
      [ destruct (isascii _); [destruct (String.eqb _ _)|] | ];
      intros E; inversion E; split; reflexivity.
  - revert E. unfold session_cookie_strategy.
    rewrite require_session_cookie_run.
    destruct (api_key_cookie_auth request) as [k|];
      [ destruct (isascii _); [destruct (String.eqb _ _)|] | ];
      intros E; inversion E; split; reflexivity.
Qed.

Lemma bearer_auth_isascii (request : Request) (c : HTTPAuthorizationCredentials) :
  opt_isascii (header_authorization request) = true ->
  bearer_auth request = Some c -> isascii (credentials c) = true.
Proof.
  intros Ha. unfold bearer_auth.
  pose proof (scheme_param_isascii _ Ha) as P.
  destruct (get_authorization_scheme_param (header_authorization request))
    as [sch cred].
  destruct (negb _); [discriminate|].
  destruct (negb _); [discriminate|].
  intros H. injection H as <-. apply P.
Qed.

(** On a request whose headers and cookies are ASCII every strategy either
    authenticates or fails as the table says. *)
Lemma ascii_requests_follow_the_table (request : Request) :
  ascii_request request = true ->
  succeeds_or_fails_with (run (basic_strategy request)) 401 WWW_Basic
  /\ succeeds_or_fails_with (run (bearer_strategy request)) 401 WWW_Bearer
  /\ succeeds_or_fails_with (run (oauth2_strategy request)) 401 WWW_Bearer
  /\ succeeds_or_fails_with (run (api_key_header_strategy request)) 403 []
  /\ succeeds_or_fails_with (run (session_cookie_strategy request)) 403 [].
Proof.
  unfold ascii_request. intros H.
  apply andb_true_iff in H as [H Hc]. apply andb_true_iff in H as [Ha Hk].
  split; [apply basic_strategy_fails_with|]. split; [|split; [|split]].
  - unfold bearer_strategy. rewrite require_bearer_token_run.
    destruct (bearer_auth request) as [c|] eqn:E; [|simpl; auto].
    rewrite (bearer_auth_isascii _ _ Ha E).
    destruct (negb _); [simpl; auto|].
    destruct (String.eqb _ _); simpl; auto.
  - rewrite oauth2_strategy_run. unfold oauth2_auth.
    pose proof (scheme_param_isascii _ Ha) as P.
    destruct (get_authorization_scheme_param _) as [sch param].
    destruct (_ || _); [simpl; auto|].
    rewrite require_oauth2_token_run. destruct P as [_ ->].
    destruct (String.eqb _ _); simpl; auto.
  - unfold api_key_header_strategy, api_key_header_auth.
    rewrite require_api_key_header_run.
    destruct (header_x_api_key request) as [k|]; simpl in *; [|auto].
    destruct (truthy k); simpl; [|auto].
    rewrite Hk. destruct (String.eqb _ _); simpl; auto.
  - unfold session_cookie_strategy, api_key_cookie_auth.
    rewrite require_session_cookie_run.
    destruct (cookie_session_token request) as [k|]; simpl in *; [|auto].
    destruct (truthy k); simpl; [|auto].
    rewrite Hc. destruct (String.eqb _ _); simpl; auto.
Qed.

(** C2. The failure table (401 with the scheme's challenge for Basic, Bearer
    and OAuth2Password, 403 without challenge for the API-key schemes) is
    claimed for every request whose credential is missing or invalid.  A
    presented credential with a non-ASCII character is invalid, yet the
    Bearer, OAuth2Password, ApiKeyHeader and ApiKeyCookie strategies end in a
    [TypeError] on it: no status of the table and no challenge. *)
Theorem non_ascii_credential_escapes_the_table :
  let with_bearer := mkRequest (Some ("Bearer " ++ e_acute)) None None in
  let with_key := mkRequest None (Some e_acute) None in
  let with_cookie := mkRequest None None (Some e_acute) in
  run (bearer_strategy with_bearer) = Raised TypeError
  /\ run (oauth2_strategy with_bearer) = Raised TypeError
  /\ run (api_key_header_strategy with_key) = Raised TypeError
  /\ run (session_cookie_strategy with_cookie) = Raised TypeError
  /\ status_and_challenge (run (bearer_strategy with_bearer)) = None
  /\ status_and_challenge (run (api_key_header_strategy with_key)) = None.
Proof.
  repeat split; reflexivity.
Qed.

(** ** Which comparison primitive runs, and when *)

Lemma require_basic_auth_trace (creds : option HTTPBasicCredentials) :
  forallb is_compare_digest (trace (require_basic_auth creds)) = true.
Proof.
  destruct creds as [c|]; [|reflexivity].
  unfold require_basic_auth. by_cases.
Qed.

Lemma require_bearer_token_trace (creds : option HTTPAuthorizationCredentials) :
  forallb is_compare_digest (trace (require_bearer_token creds)) = true.
Proof.
  destruct creds as [c|]; [|reflexivity].
  unfold require_bearer_token.
  destruct (negb (String.eqb (lower (scheme c)) "bearer")); [reflexivity|].
  by_cases.
Qed.

Lemma require_api_key_header_trace (x_api_key : option string) :
  forallb is_compare_digest (trace (require_api_key_header x_api_key)) = true.
Proof.
  destruct x_api_key as [k|]; [|reflexivity].
  unfold require_api_key_header. by_cases.
Qed.

Lemma require_session_cookie_trace (session_token : option string) :
  forallb is_compare_digest (trace (require_session_cookie session_token))
  = true.
Proof.
  destruct session_token as [t|]; [|reflexivity].
  unfold require_session_cookie. by_cases.
Qed.

Lemma require_oauth2_token_trace (token : string) :
  forallb is_compare_digest (trace (require_oauth2_token token)) = true.
Proof.
  unfold require_oauth2_token. by_cases.
Qed.

Lemma require_bearer_or_api_key_trace
  (creds : option HTTPAuthorizationCredentials) (x_api_key : option string) :
  forallb is_compare_digest (trace (require_bearer_or_api_key creds x_api_key))
  = true.
Proof.
  unfold require_bearer_or_api_key, try_bearer, try_api_key.
  destruct creds as [c|]; destruct x_api_key as [k|];
    try destruct (String.eqb (lower (scheme c)) "bearer");
    try destruct (truthy k); by_cases.
Qed.

(** X18. The five authentication dependencies and the hybrid one compare
    presented material with a trusted constant only through
    [secrets.compare_digest], never natively, on every input.  For Basic, on
    every request: whenever the security class hands over a pair, the user
    name and then the password are both digested, whatever the first digest
    answered, and the verdict comes after; without a pair nothing is
    compared. *)
Theorem verifiers_compare_with_compare_digest :
  (forall creds, forallb is_compare_digest (trace (require_basic_auth creds)) = true)
  /\ (forall creds,
        forallb is_compare_digest (trace (require_bearer_token creds)) = true)
  /\ (forall key,
        forallb is_compare_digest (trace (require_api_key_header key)) = true)
  /\ (forall cookie,
        forallb is_compare_digest (trace (require_session_cookie cookie)) = true)
  /\ (forall token,
        forallb is_compare_digest (trace (require_oauth2_token token)) = true)
  /\ (forall creds key,
        forallb is_compare_digest (trace (require_bearer_or_api_key creds key))
        = true)
  /\ (forall request,
        trace (basic_strategy request)
        = match basic_auth request with
          | Returned (Some c) =>
              [CompareDigest (username c) DEMO_BASIC_USERNAME;
               CompareDigest (password c) DEMO_BASIC_PASSWORD]
          | _ => []
          end).
Proof.
  split; [exact require_basic_auth_trace|].
  split; [exact require_bearer_token_trace|].
  split; [exact require_api_key_header_trace|].
  split; [exact require_session_cookie_trace|].
  split; [exact require_oauth2_token_trace|].
  split; [exact require_bearer_or_api_key_trace|].
  intros request. rewrite basic_strategy_closed.
  destruct (basic_auth request) as [[c|]|e]; reflexivity.
Qed.

(** A wrong user name does not spare the password its digest. *)
Example basic_wrong_user_still_digests_password :
  basic_strategy (mkRequest (Some "Basic bm9ib2R5OmFkbWluLXBhc3N3b3Jk") None None)
  = ([CompareDigest "nobody" DEMO_BASIC_USERNAME;
      CompareDigest "admin-password" DEMO_BASIC_PASSWORD],
     Raised (failure 401 "Invalid basic authentication credentials." WWW_Basic)).
Proof. reflexivity. Qed.

(** The two issuance endpoints are not verifiers of a scheme; they compare
    natively, and a wrong user name skips the comparison of the password. *)
Lemma issuance_endpoints_compare_natively
  (user pass : string) (response : Response) :
  user <> DEMO_BASIC_USERNAME ->
  user <> DEMO_OAUTH_USERNAME ->
  trace (session_login (mkSessionLoginIn user pass) response)
  = [NativeNe user DEMO_BASIC_USERNAME]
  /\ trace (oauth_token (mkForm user pass)) = [NativeNe user DEMO_OAUTH_USERNAME].
Proof.
  intros H1 H2. unfold session_login, oauth_token, str_ne.
  cbn [login_username login_password form_username form_password].
  apply String.eqb_neq in H1, H2. rewrite H1, H2. split; reflexivity.
Qed.

(** C3. Every comparison of presented credential material against a trusted
    secret is claimed to go through a constant-time primitive, never a native
    short-circuiting comparison.  The token endpoint and the session login
    compare the presented user name and password with [!=], joined by [or]: a
    wrong user name is answered after one native comparison, the password not
    being looked at, a wrong password after two. *)
Theorem issuance_compares_natively_and_short_circuits :
  let unauthorized := failure 401 "Invalid OAuth username/password." [] in
  oauth_token (mkForm "intruder" DEMO_OAUTH_PASSWORD)
  = ([NativeNe "intruder" DEMO_OAUTH_USERNAME], Raised unauthorized)
  /\ oauth_token (mkForm DEMO_OAUTH_USERNAME "guess")
     = ([NativeNe DEMO_OAUTH_USERNAME DEMO_OAUTH_USERNAME;
         NativeNe "guess" DEMO_OAUTH_PASSWORD], Raised unauthorized)
  /\ forallb is_compare_digest
       (trace (oauth_token (mkForm "intruder" DEMO_OAUTH_PASSWORD))) = false
  /\ session_login (mkSessionLoginIn "intruder" DEMO_BASIC_PASSWORD)
       (mkResponse [])
     = ([NativeNe "intruder" DEMO_BASIC_USERNAME],
        Raised (failure 401 "Invalid credentials." []))
  /\ forallb is_compare_digest
       (trace (session_login (mkSessionLoginIn "intruder" DEMO_BASIC_PASSWORD)
                 (mkResponse []))) = false.
Proof.
  repeat split; reflexivity.
Qed.

(** ** What the handlers are given *)

(** An operation is its handler applied to what the strategy returned. *)
Lemma operations_pass_the_strategy_result
  (store : RouteStore) (request : Request)
  (depot : CreateDepotIn) (dispatch : DispatchIn) :
  create_depot_operation request depot
  = fmap (create_depot depot) (basic_strategy request)
  /\ bearer_profile_operation request
     = fmap bearer_profile (bearer_strategy request)
  /\ header_key_metrics_operation store request
     = fmap (header_key_metrics store) (api_key_header_strategy request)
  /\ cookie_incidents_operation request
     = fmap cookie_incidents (session_cookie_strategy request)
  /\ oauth_profile_operation request
     = fmap oauth_profile (oauth2_strategy request)
  /\ create_dispatch_operation request dispatch
     = fmap (create_dispatch dispatch) (oauth2_strategy request)
  /\ hybrid_alert_operation request
     = fmap hybrid_alert (hybrid_strategy request).
Proof.
  repeat split; reflexivity.
Qed.

(** C4, as stated, fails: on a request that authenticates, the value handed
    to the handler of a single-scheme operation is the presented credential
    itself.  [create_depot] receives the decoded user name and password of the
    [Authorization: Basic] header, [bearer_profile] the token of the
    [Authorization: Bearer] header. *)
Lemma handlers_receive_the_presented_credential :
  let basic := mkRequest (Some "Basic YWRtaW46YWRtaW4tcGFzc3dvcmQ=") None None in
  let bearer := mkRequest (Some "Bearer demo-bearer-token") None None in
  basic_auth basic = Returned (Some (mkBasic "admin" "admin-password"))
  /\ run (basic_strategy basic) = Returned (mkBasic "admin" "admin-password")
  /\ bearer_auth bearer = Some (mkAuthorization "Bearer" "demo-bearer-token")
  /\ run (bearer_strategy bearer) = Returned "demo-bearer-token".
Proof.
  repeat split; reflexivity.
Qed.

Lemma hybrid_returns_a_method_name
  (creds : option HTTPAuthorizationCredentials) (x_api_key : option string) :
  match run (require_bearer_or_api_key creds x_api_key) with
  | Returned method => method = "bearer" \/ method = "api_key_header"
  | Raised _ => True
  end.
Proof.
  unfold require_bearer_or_api_key, try_bearer, try_api_key.
  destruct creds as [c|]; destruct x_api_key as [k|];
    try destruct (String.eqb (lower (scheme c)) "bearer");
    try destruct (truthy k); by_cases; cbn; auto.
Qed.

(** C4, amended.  What a single-scheme strategy returns on success, and so
    what its handler is given, is the credential the security class extracted
    from the request; the handlers of these operations ignore it, their answer
    being the same for every value given.  Only the handler of the hybrid
    operation is given a method name, "bearer" or "api_key_header", instead
    of a credential. *)
Theorem handlers_ignore_the_credential_they_receive :
  (forall payload c c', create_depot payload c = create_depot payload c')
  /\ (forall t t', bearer_profile t = bearer_profile t')
  /\ (forall store k k', header_key_metrics store k = header_key_metrics store k')
  /\ (forall c c', cookie_incidents c = cookie_incidents c')
  /\ (forall t t', oauth_profile t = oauth_profile t')
  /\ (forall payload t t', create_dispatch payload t = create_dispatch payload t')
  /\ (forall request,
        match run (basic_strategy request) with
        | Returned c => basic_auth request = Returned (Some c)
        | Raised _ => True
        end)
  /\ (forall request,
        match run (bearer_strategy request) with
        | Returned t =>
            exists c, bearer_auth request = Some c /\ credentials c = t
        | Raised _ => True
        end)
  /\ (forall request,
        match run (api_key_header_strategy request) with
        | Returned k => header_x_api_key request = Some k
        | Raised _ => True
        end)
  /\ (forall request,
        match run (session_cookie_strategy request) with
        | Returned t => cookie_session_token request = Some t
        | Raised _ => True
        end)
  /\ (forall request,
        match run (oauth2_strategy request) with
        | Returned t => oauth2_auth request = Returned t
        | Raised _ => True
        end)
  /\ (forall request,
        match run (hybrid_strategy request) with
        | Returned method => method = "bearer" \/ method = "api_key_header"
        | Raised _ => True
        end).
Proof.
  repeat match goal with |- _ /\ _ => split end; try reflexivity.
  - intros request. rewrite basic_strategy_closed.
    destruct (basic_auth request) as [[c|]|e]; msimpl; auto.
    destruct (_ && _); auto.
  - intros request. unfold bearer_strategy. rewrite require_bearer_token_run.
    destruct (bearer_auth request) as [c|]; auto.
    destruct (negb _); auto. destruct (isascii _); auto.
    destruct (String.eqb _ _); eauto.
  - intros request. unfold api_key_header_strategy, api_key_header_auth.
    rewrite require_api_key_header_run.
    destruct (header_x_api_key request) as [k|]; simpl; auto.
    destruct (truthy k); simpl; auto.
    destruct (isascii _); auto. destruct (String.eqb _ _); auto.
  - intros request. unfold session_cookie_strategy, api_key_cookie_auth.
    rewrite require_session_cookie_run.
    destruct (cookie_session_token request) as [k|]; simpl; auto.
    destruct (truthy k); simpl; auto.
    destruct (isascii _); auto. destruct (String.eqb _ _); auto.
  - intros request. rewrite oauth2_strategy_run.
    destruct (oauth2_auth request) as [t|e]; auto.
    rewrite require_oauth2_token_run.
    destruct (isascii _); auto. destruct (String.eqb _ _); auto.
  - intros request. apply hybrid_returns_a_method_name.
Qed.

(** ** Missing and undecodable credentials *)

(** A scheme that lowers to "basic" comes from a non-empty header. *)
Lemma basic_scheme_has_header (value : option string) (sch param : string) :
  get_authorization_scheme_param value = (sch, param) ->
  lower sch = "basic" -> opt_truthy value = true.
Proof.
  destruct value as [v|]; simpl.
  - destruct (truthy v); [reflexivity|].
    intros H. injection H as <- <-. discriminate.
  - intros H. injection H as <- <-. discriminate.
Qed.

(** C5, as stated, fails in its second half: an [Authorization: Basic] header
    whose payload is not base64 is not handed to [require_basic_auth] as an
    absent credential.  The security class raises its own 401, so the strategy
    does not answer what it answers to a missing header. *)
Lemma undecodable_basic_is_not_missing :
  let request := mkRequest (Some "Basic abc") None None in
  b64decode "abc" = None
  /\ basic_auth request = Raised basic_not_authenticated
  /\ basic_strategy request = ([], Raised basic_not_authenticated)
  /\ run (basic_strategy request) <> run (require_basic_auth None).
Proof.
  repeat split; try reflexivity. discriminate.
Qed.

(** C5, amended.  Without an [Authorization] header the Basic and the Bearer
    strategy both fail with their Missing failure.  With a header of scheme
    Basic (in any casing) whose payload does not decode, the security class
    itself rejects the request with 401 and the Basic challenge, before
    [require_basic_auth] runs and without any comparison; the failure is the
    framework's, neither the strategy's Missing nor its Invalid one. *)
Theorem missing_header_and_undecodable_basic (request : Request) :
  (header_authorization request = None ->
   run (basic_strategy request)
   = Raised (failure 401 "Missing basic authentication credentials." WWW_Basic)
   /\ run (bearer_strategy request)
      = Raised (failure 401 "Missing bearer token." WWW_Bearer))
  /\ (forall sch param,
        get_authorization_scheme_param (header_authorization request)
        = (sch, param) ->
        lower sch = "basic" ->
        undecodable param = true ->
        basic_strategy request = ([], Raised basic_not_authenticated)
        /\ status_and_challenge (run (basic_strategy request))
           = Some (401, Some "Basic")).
Proof.
  split.
  - intros H. destruct (no_authorization_header request H) as (Hb & Hr & _).
    unfold basic_strategy, bearer_strategy. rewrite Hb, Hr. split; reflexivity.
  - intros sch param Hp Hs Hu.
    assert (E : basic_auth request = Raised basic_not_authenticated).
    { unfold basic_auth. rewrite Hp.
      rewrite (basic_scheme_has_header _ _ _ Hp Hs), Hs. cbn [negb orb String.eqb].
      change (String.eqb "basic" "basic") with true. cbn [negb].
      unfold undecodable in Hu.
      destruct (b64decode param) as [bytes|]; [|reflexivity].
      unfold decode_ascii. apply negb_true_iff in Hu. now rewrite Hu. }
    rewrite basic_strategy_closed, E. split; reflexivity.
Qed.

Lemma missing_header_and_undecodable_basic_witness :
  (run (basic_strategy (mkRequest None None None))
   = Raised (failure 401 "Missing basic authentication credentials." WWW_Basic)
   /\ run (bearer_strategy (mkRequest None None None))
      = Raised (failure 401 "Missing bearer token." WWW_Bearer))
  /\ (basic_strategy (mkRequest (Some "bAsIc abc") None None)
      = ([], Raised basic_not_authenticated)
      /\ status_and_challenge
           (run (basic_strategy (mkRequest (Some "bAsIc abc") None None)))
         = Some (401, Some "Basic")).
Proof.
  split.
  - apply (proj1 (missing_header_and_undecodable_basic (mkRequest None None None))).
    reflexivity.
  - apply (proj2 (missing_header_and_undecodable_basic
                    (mkRequest (Some "bAsIc abc") None None)) "bAsIc" "abc");
      reflexivity.
Defined.

(** A payload that decodes to ASCII text without a colon is rejected by the
    security class in the same way. *)
Example basic_without_colon :
  basic_strategy (mkRequest (Some "Basic YWRtaW4=") None None)
  = ([], Raised basic_not_authenticated).
Proof. reflexivity. Qed.

(** ** The hybrid dependency when nothing matches *)

Lemma try_api_key_falls_through (x_api_key : option string) :
  api_key_falls_through x_api_key -> run (try_api_key x_api_key) = Returned None.
Proof.
  destruct x_api_key as [k|]; [|reflexivity].
  unfold try_api_key, api_key_falls_through.
  intros [->|[Ha Hn]]; [reflexivity|].
  destruct (truthy k); [|reflexivity].
  digest Ha. msimpl.
  destruct (String.eqb_spec k DEMO_HEADER_API_KEY); [contradiction|reflexivity].
Qed.

(** When both sides fall through there is one failure, 401 with the Bearer
    challenge, whichever of the two was attempted. *)
Lemma hybrid_all_failed
  (creds : option HTTPAuthorizationCredentials) (x_api_key : option string) :
  bearer_falls_through creds ->
  api_key_falls_through x_api_key ->
  run (require_bearer_or_api_key creds x_api_key)
  = Raised (failure 401 "Provide a valid bearer token or x-api-key header."
              WWW_Bearer).
Proof.
  intros Hb Hk.
  apply try_bearer_falls_through in Hb. apply try_api_key_falls_through in Hk.
  unfold require_bearer_or_api_key.
  destruct (try_bearer creds) as [t o]. unfold run in Hb. simpl in Hb. subst o.
  msimpl.
  destruct (try_api_key x_api_key) as [t' o']. unfold run in Hk. simpl in Hk.
  subst o'. reflexivity.
Qed.

(** C6. When the bearer token is absent or invalid and the API key is absent
    or invalid, the hybrid dependency is claimed to produce one failure, 401
    with the Bearer challenge.  On an invalid API key holding a non-ASCII
    character (and likewise on such a bearer token) it ends in a [TypeError]
    instead: no 401 and no challenge. *)
Theorem hybrid_non_ascii_key_raises :
  let request := mkRequest None (Some e_acute) None in
  bearer_auth request = None
  /\ api_key_header_auth request = Some e_acute
  /\ hybrid_strategy request
     = ([CompareDigest e_acute DEMO_HEADER_API_KEY], Raised TypeError)
  /\ status_and_challenge (run (hybrid_strategy request)) = None.
Proof.
  repeat split; reflexivity.
Qed.

(** ** OAuth2: issuance and verification *)

Lemma oauth_token_run (form_data : OAuth2PasswordRequestForm) :
  run (oauth_token form_data)
  = if String.eqb (form_username form_data) DEMO_OAUTH_USERNAME
       && String.eqb (form_password form_data) DEMO_OAUTH_PASSWORD
    then Returned (mkTokenOut DEMO_OAUTH_TOKEN "bearer")
    else Raised (failure 401 "Invalid OAuth username/password." []).
Proof.
  unfold oauth_token, str_ne.
  destruct (String.eqb (form_username form_data) DEMO_OAUTH_USERNAME);
    destruct (String.eqb (form_password form_data) DEMO_OAUTH_PASSWORD);
    reflexivity.
Qed.

(** The token the endpoint issues is accepted, and nothing else is. *)
Lemma oauth_token_round_trip (token : string) :
  run (require_oauth2_token DEMO_OAUTH_TOKEN) = Returned DEMO_OAUTH_TOKEN
  /\ ((exists t, run (require_oauth2_token token) = Returned t) ->
      token = DEMO_OAUTH_TOKEN).
Proof.
  split; [reflexivity|].
  rewrite require_oauth2_token_run. intros [t H].
  destruct (isascii token); [|discriminate].
  destruct (String.eqb_spec token DEMO_OAUTH_TOKEN); [assumption|discriminate].
Qed.

(** Any other ASCII token is rejected as invalid, with 401. *)
Lemma oauth_other_ascii_token_invalid (token : string) :
  isascii token = true -> token <> DEMO_OAUTH_TOKEN ->
  run (require_oauth2_token token)
  = Raised (failure 401 "Invalid OAuth2 access token." WWW_Bearer).
Proof.
  intros Ha Hn. rewrite require_oauth2_token_run, Ha.
  destruct (String.eqb_spec token DEMO_OAUTH_TOKEN); [contradiction|reflexivity].
Qed.

(** C7. The token endpoint issues, for the right pair, the token that
    [require_oauth2_token] accepts, and answers 401 without a token for any
    other pair; every other token is claimed to be rejected as Invalid with
    401.  A presented token holding a non-ASCII character is another token,
    and the verifier ends in a [TypeError] on it instead. *)
Theorem oauth_non_ascii_token_raises :
  let request := mkRequest (Some ("Bearer " ++ e_acute)) None None in
  e_acute <> DEMO_OAUTH_TOKEN
  /\ oauth2_auth request = Returned e_acute
  /\ require_oauth2_token e_acute
     = ([CompareDigest e_acute DEMO_OAUTH_TOKEN], Raised TypeError)
  /\ run (oauth_profile_operation request) = Raised TypeError.
Proof.
  repeat split; try reflexivity. discriminate.
Qed.

(** ** Bearer: the scheme in any casing, the token exactly *)

(** Lowering a letter of "a".."z", or its capital, gives the letter. *)
Lemma char_lower_of_casing (a b : ascii) :
  (97 <=? N_of_ascii b)%N && (N_of_ascii b <=? 122)%N = true ->
  Ascii.eqb a b || Ascii.eqb a (char_upper b) = true ->
  char_lower a = b.
Proof.
  intros Hb H. apply orb_true_iff in H as [H|H]; apply Ascii.eqb_eq in H; subst a;
    destruct b as [[] [] [] [] [] [] [] []];
    try discriminate Hb; reflexivity.
Qed.

(** Every casing of "bearer" lowers to "bearer". *)
Lemma casing_of_bearer_lowers (sch : string) :
  is_casing_of sch "bearer" = true -> lower sch = "bearer".
Proof.
  intros H.
  repeat (destruct sch as [|? sch]; [discriminate H|];
          cbn [is_casing_of] in H; apply andb_true_iff in H as [? H]).
  destruct sch; [|discriminate H].
  cbn [lower]. repeat f_equal; apply char_lower_of_casing; auto.
Qed.

(** With the scheme in any casing, the token is accepted exactly when it is
    the trusted one, and any other ASCII token is rejected as invalid. *)
Lemma bearer_any_casing_exact_token (sch token : string) :
  is_casing_of sch "bearer" = true ->
  run (require_bearer_token (Some (mkAuthorization sch DEMO_BEARER_TOKEN)))
  = Returned DEMO_BEARER_TOKEN
  /\ ((exists t, run (require_bearer_token (Some (mkAuthorization sch token)))
                 = Returned t) -> token = DEMO_BEARER_TOKEN)
  /\ (isascii token = true -> token <> DEMO_BEARER_TOKEN ->
      run (require_bearer_token (Some (mkAuthorization sch token)))
      = Raised (failure 401 "Invalid bearer token." WWW_Bearer)).
Proof.
  intros H. apply casing_of_bearer_lowers in H.
  rewrite !require_bearer_token_run. cbn [scheme credentials]. rewrite H.
  change (negb (String.eqb "bearer" "bearer")) with false. cbv iota.
  split; [reflexivity|]. split.
  - intros [t Ht]. destruct (isascii token); [|discriminate].
    destruct (String.eqb_spec token DEMO_BEARER_TOKEN); [assumption|discriminate].
  - intros Ha Hn. rewrite Ha.
    destruct (String.eqb_spec token DEMO_BEARER_TOKEN); [contradiction|reflexivity].
Qed.

Example bearer_casings_on_the_wire :
  run (bearer_strategy (mkRequest (Some "bearer demo-bearer-token") None None))
  = Returned DEMO_BEARER_TOKEN
  /\ run (bearer_strategy (mkRequest (Some "Bearer demo-bearer-token") None None))
     = Returned DEMO_BEARER_TOKEN
  /\ run (bearer_strategy (mkRequest (Some "BEARER demo-bearer-token") None None))
     = Returned DEMO_BEARER_TOKEN
  /\ run (bearer_strategy (mkRequest (Some "Bearer Demo-bearer-token") None None))
     = Raised (failure 401 "Invalid bearer token." WWW_Bearer).
Proof. repeat split; reflexivity. Qed.

(** C8. The scheme word is accepted in every casing and the token is compared
    exactly; any token other than the trusted one is claimed to be rejected as
    Invalid.  A token holding a non-ASCII character is such a token, and the
    strategy ends in a [TypeError] on it, where an "Invalid bearer token."
    failure is claimed. *)
Theorem bearer_non_ascii_token_raises :
  let request := mkRequest (Some ("BEARER " ++ e_acute)) None None in
  bearer_auth request = Some (mkAuthorization "BEARER" e_acute)
  /\ e_acute <> DEMO_BEARER_TOKEN
  /\ bearer_strategy request
     = ([CompareDigest e_acute DEMO_BEARER_TOKEN], Raised TypeError)
  /\ run (bearer_strategy request)
     <> Raised (failure 401 "Invalid bearer token." WWW_Bearer).
Proof.
  repeat split; try reflexivity; discriminate.
Qed.

(** ** Session login and the session cookie *)

Lemma session_login_run (payload : SessionLoginIn) (response : Response) :
  run (session_login payload response)
  = if String.eqb (login_username payload) DEMO_BASIC_USERNAME
       && String.eqb (login_password payload) DEMO_BASIC_PASSWORD
    then Returned (mkSessionLoginOut "Session cookie issued.",
                   set_cookie response issued_cookie)
    else Raised (failure 401 "Invalid credentials." []).
Proof.
  unfold session_login, str_ne.
  destruct (String.eqb (login_username payload) DEMO_BASIC_USERNAME);
    destruct (String.eqb (login_password payload) DEMO_BASIC_PASSWORD);
    reflexivity.
Qed.

(** [require_basic_auth] accepts a pair exactly when it is the trusted one. *)
Lemma require_basic_auth_accepts (user pass : string) :
  run (require_basic_auth (Some (mkBasic user pass)))
  = Returned (mkBasic user pass)
  <-> String.eqb user DEMO_BASIC_USERNAME
      && String.eqb pass DEMO_BASIC_PASSWORD = true.
Proof.
  unfold require_basic_auth, compare_digest. cbn [username password].
  change (isascii DEMO_BASIC_USERNAME) with true.
  change (isascii DEMO_BASIC_PASSWORD) with true.
  destruct (String.eqb_spec user DEMO_BASIC_USERNAME) as [->|Hu];
    destruct (String.eqb_spec pass DEMO_BASIC_PASSWORD) as [->|Hp];
    try (split; [reflexivity | reflexivity]).
  - destruct (isascii pass); split; discriminate.
  - destruct (isascii user); split; discriminate.
  - destruct (isascii user); destruct (isascii pass); split; discriminate.
Qed.

(** C9. The session login accepts exactly the pair the Basic scheme trusts:
    on that pair it answers "Session cookie issued." and adds to the response
    one cookie, [session_token] with the fixed value [DEMO_SESSION_TOKEN],
    which [require_session_cookie] accepts when a later request carries it;
    on any other pair it raises 401 and hands back no response, hence no
    cookie. *)
Theorem session_login_issues_the_accepted_cookie
  (payload : SessionLoginIn) (response : Response) :
  let accepted :=
    String.eqb (login_username payload) DEMO_BASIC_USERNAME
    && String.eqb (login_password payload) DEMO_BASIC_PASSWORD in
  run (session_login payload response)
  = (if accepted
     then Returned (mkSessionLoginOut "Session cookie issued.",
                    mkResponse (cookies response ++ [issued_cookie]))
     else Raised (failure 401 "Invalid credentials." []))
  /\ (accepted = true
      <-> run (require_basic_auth
                 (Some (mkBasic (login_username payload) (login_password payload))))
          = Returned (mkBasic (login_username payload) (login_password payload)))
  /\ cookie_key issued_cookie = "session_token"
  /\ cookie_value issued_cookie = DEMO_SESSION_TOKEN
  /\ run (session_cookie_strategy
            (mkRequest None None (Some (cookie_value issued_cookie))))
     = Returned (cookie_value issued_cookie)
  /\ (forall token,
        (exists t, run (require_session_cookie (Some token)) = Returned t) ->
        token = cookie_value issued_cookie).
Proof.
  cbv zeta. split; [apply session_login_run|].
  split; [symmetry; apply require_basic_auth_accepts|].
  repeat split.
  intros token [t H]. rewrite require_session_cookie_run in H.
  destruct (isascii token); [|discriminate].
  destruct (String.eqb_spec token DEMO_SESSION_TOKEN); [assumption|discriminate].
Qed.

(** ** The module is only read *)

(** A body that only reads leaves the module as it found it. *)
Lemma read_only_frame {A} (p : Prog A) (m : Module) :
  read_only p -> snd (interp p m) = m.
Proof.
  induction p as [a|X op k IH]; cbn [interp read_only]; [reflexivity|].
  intros [Hop Hk].
  destruct op; try discriminate Hop; cbn [access]; apply IH, Hk.
Qed.

(** The bodies of the twelve routes only read. *)
Lemma routes_only_read (call : Call) : read_only (route_of call).
Proof.
  destruct call; cbn [route_of]; try exact I.
  - split; [reflexivity|]. intros routes. exact I.
  - split; [reflexivity|]. intros route. exact I.
  - unfold header_key_metrics_route.
    destruct (api_key_header_strategy request) as [t [key|e]]; [|exact I].
    split; [reflexivity|]. intros n. exact I.
Qed.

Lemma serve_all_frame (calls : list Call) (m : Module) :
  snd (serve_all m calls) = m.
Proof.
  revert m. induction calls as [|call rest IH]; intros m; [reflexivity|].
  cbn [serve_all].
  pose proof (read_only_frame (route_of call) m (routes_only_read call)) as H.
  unfold serve. destruct (interp (route_of call) m) as [answer m'].
  cbn [snd] in H. subst m'.
  specialize (IH m). destruct (serve_all m rest) as [answers m''].
  exact IH.
Qed.

(** The frame is not for free: a body that writes leaves another module. *)
Example a_write_would_show :
  let depot := mkRouteOut "depot-1" "Depot" "Helsinki" bus 0 in
  m_route_store
    (snd (interp (Vis (StoreSetItem "depot-1" depot) (fun _ => Done tt)) startup))
  = (route_store ++ [("depot-1", depot)])%list
  /\ ~ read_only (Vis (StoreSetItem "depot-1" depot) (fun _ => Done tt)).
Proof.
  split; [reflexivity|]. intros [H _]. discriminate H.
Qed.

(** The bodies answer what the handlers answer on the store of the module. *)
Lemma routes_answer_as_the_handlers (m : Module) (city : option string)
  (ttype : option TransportType) (limit offset : nat) (id : string)
  (request : Request) :
  fst (serve m (GetRoutes city ttype limit offset))
  = ret (BodyRoutes (list_routes (m_route_store m) city ttype limit offset))
  /\ fst (serve m (GetRoute id))
     = fmap BodyRoute (get_route (m_route_store m) id)
  /\ run (fst (serve m (GetSystemMetrics request)))
     = run (fmap BodyMetrics
              (header_key_metrics_operation (m_route_store m) request)).
Proof.
  split; [reflexivity|]. split.
  - unfold serve, get_route. cbn.
    destruct (store_get (m_route_store m) id); reflexivity.
  - unfold serve, header_key_metrics_operation. cbn [route_of].
    unfold header_key_metrics_route.
    destruct (api_key_header_strategy request) as [t [key|e]]; reflexivity.
Qed.

(** C10. No call changes the module-level state.  Every route body makes
    only reads of the module ([route_store.values()], [route_store.get],
    [len(route_store)], or nothing), so after any sequence of calls the
    module is the one the import left: [route_store] holds its two startup
    entries, and the trust names and the security instances are bound as at
    startup.  After any such sequence, creating a depot or a dispatch answers
    with the fixed identifier "depot-1" or "dispatch-1" and the fields of the
    payload, once the request is authenticated: the answer depends on nothing
    that an earlier call could have left behind. *)
Theorem route_store_is_never_mutated (calls : list Call) :
  (forall call, read_only (route_of call))
  /\ snd (serve_all startup calls) = startup
  /\ m_route_store (snd (serve_all startup calls)) = route_store
  /\ map fst (m_route_store (snd (serve_all startup calls)))
     = ["route-1"; "route-2"]
  /\ (forall request payload,
        fst (serve (snd (serve_all startup calls)) (PostDepot request payload))
        = fmap (fun _ =>
                  BodyDepot (mkDepotOut "depot-1" (depot_in_name payload)
                               (depot_in_city payload)
                               (depot_in_max_vehicles payload)))
            (basic_strategy request))
  /\ (forall request payload,
        fst (serve (snd (serve_all startup calls))
               (PostDispatch request payload))
        = fmap (fun _ =>
                  BodyDispatch (mkDispatchOut "dispatch-1"
                                  (dispatch_in_vehicle_id payload)
                                  (dispatch_in_route_id payload)
                                  (dispatch_in_departs_at payload) "scheduled"))
            (oauth2_strategy request)).
Proof.
  split; [exact routes_only_read|].
  rewrite serve_all_frame.
  split; [reflexivity|]. split; [reflexivity|]. split; [reflexivity|].
  split; intros request payload; unfold serve; cbn [route_of interp fst].
  - unfold create_depot_route, create_depot_operation, fmap.
    destruct (basic_strategy request) as [t [c|e]]; cbn;
      rewrite ?app_nil_r; reflexivity.
  - unfold create_dispatch_route, create_dispatch_operation, fmap.
    destruct (oauth2_strategy request) as [t [c|e]]; cbn;
      rewrite ?app_nil_r; reflexivity.
Qed.

(** * Further properties of the handlers and the strategies *)

(** ** Listing and fetching routes *)

Lemma firstn_skipn_tile {A} (a b : nat) (l : list A) :
  (firstn a l ++ firstn b (skipn a l))%list = firstn (a + b) l.
Proof.
  revert l. induction a as [|a IH]; intros l; [reflexivity|].
  destruct l as [|x l]; simpl.
  - now destruct b.
  - now rewrite IH.
Qed.

Lemma skipn_add {A} (a b : nat) (l : list A) :
  skipn (a + b) l = skipn b (skipn a l).
Proof.
  revert l. induction a as [|a IH]; intros l; [reflexivity|].
  destruct l as [|x l]; simpl; [now destruct b | apply IH].
Qed.

Lemma in_page {A} (limit offset : nat) (l : list A) (x : A) :
  In x (firstn limit (skipn offset l)) -> In x l.
Proof.
  intros H.
  rewrite <- (firstn_skipn offset l). apply in_or_app. right.
  rewrite <- (firstn_skipn limit (skipn offset l)). apply in_or_app. now left.
Qed.

(** The routes [list_routes] pages over are the values of the store that pass
    the filters, in the order of the store. *)
Lemma list_routes_filtered (store : RouteStore) (city : option string)
  (ttype : option TransportType) (limit offset : nat) :
  list_routes store city ttype limit offset
  = let routes := filter (route_matches city ttype) (map snd store) in
    mkRouteSearchOut (length routes) (firstn limit (skipn offset routes)).
Proof.
  unfold list_routes, route_matches. cbv zeta.
  assert (E : forall (f g : RouteOut -> bool) l,
             filter g (filter f l) = filter (fun r => f r && g r) l).
  { intros f g l. induction l as [|x l IH]; simpl; [reflexivity|].
    destruct (f x); simpl; [destruct (g x)|]; now rewrite IH. }
  assert (T : forall l : list RouteOut, filter (fun _ => true) l = l).
  { intros l. induction l as [|x l IH]; simpl; [reflexivity|now rewrite IH]. }
  destruct city as [c|]; destruct ttype as [t|].
  - now rewrite E.
  - rewrite <- (T (filter _ (map snd store))) at 1 2. now rewrite !E.
  - reflexivity.
  - now rewrite T.
Qed.

(** X1. A page of [list_routes] holds [min limit (total - offset)] routes,
    where [total] is the number of routes of the store that pass the city and
    the transport-type filter, counted before paging: an offset at or past
    the total gives an empty page, and the total does not depend on the page
    asked for. *)
Theorem list_routes_page_length (store : RouteStore) (city : option string)
  (ttype : option TransportType) (limit offset limit' offset' : nat) :
  let page := list_routes store city ttype limit offset in
  total page = length (filter (route_matches city ttype) (map snd store))
  /\ length (items page) = Nat.min limit (total page - offset)
  /\ total page = total (list_routes store city ttype limit' offset')
  /\ (total page <= offset -> items page = [])%nat.
Proof.
  cbv zeta. rewrite !list_routes_filtered. cbn [items total].
  set (routes := filter _ _).
  split; [reflexivity|]. split; [|split].
  - now rewrite List.length_firstn, List.length_skipn.
  - reflexivity.
  - intros H. rewrite skipn_all2 by exact H. now destruct limit.
Qed.

Lemma list_routes_page_length_witness :
  let page := list_routes route_store (Some "HELSINKI") None 20 2 in
  total page = 2%nat
  /\ length (items page) = Nat.min 20 (total page - 2)
  /\ total page = total (list_routes route_store (Some "HELSINKI") None 1 0)
  /\ items page = [].
Proof.
  cbv zeta.
  pose proof (list_routes_page_length route_store (Some "HELSINKI") None
                20 2 1 0) as (H0 & H1 & H2 & H3).
  split; [exact H0|]. split; [exact H1|]. split; [exact H2|].
  apply H3. vm_compute. apply le_n.
Defined.

(** X2. Consecutive pages tile the filtered list: the page of [limit] routes
    at [offset] followed by the page of [limit'] routes at [offset + limit] is
    the page of [limit + limit'] routes at [offset]; no route is skipped or
    repeated between them. *)
Theorem list_routes_pages_tile (store : RouteStore) (city : option string)
  (ttype : option TransportType) (limit limit' offset : nat) :
  (items (list_routes store city ttype limit offset)
   ++ items (list_routes store city ttype limit' (offset + limit)))%list
  = items (list_routes store city ttype (limit + limit') offset).
Proof.
  rewrite !list_routes_filtered. cbn [items].
  rewrite skipn_add. apply firstn_skipn_tile.
Qed.

(** X3. Every route of a page is a route of the store that passes both
    filters (the city whatever its casing), and a page from offset 0 that is
    as long as the store holds every such route. *)
Theorem list_routes_filters_exactly (store : RouteStore) (city : option string)
  (ttype : option TransportType) (limit offset : nat) (r : RouteOut) :
  (In r (items (list_routes store city ttype limit offset)) ->
   In r (map snd store) /\ route_matches city ttype r = true)
  /\ ((length store <= limit)%nat ->
      In r (map snd store) -> route_matches city ttype r = true ->
      In r (items (list_routes store city ttype limit 0))).
Proof.
  rewrite !list_routes_filtered. cbn [items]. split.
  - intros H. apply filter_In. exact (in_page limit offset _ r H).
  - intros Hl Hi Hm. cbn [skipn].
    rewrite firstn_all2.
    + apply filter_In. now split.
    + etransitivity; [apply filter_length_le|].
      now rewrite length_map.
Qed.

Lemma list_routes_filters_exactly_witness :
  let r := mkRouteOut "route-2" "Airport Express" "Helsinki" bus 7 in
  (In r (map snd route_store) /\ route_matches (Some "helsinki") (Some bus) r = true)
  /\ In r (items (list_routes route_store (Some "helsinki") (Some bus) 20 0)).
Proof.
  cbv zeta.
  pose proof (list_routes_filters_exactly route_store (Some "helsinki")
                (Some bus) 20 0
                (mkRouteOut "route-2" "Airport Express" "Helsinki" bus 7))
    as [H1 H2].
  split.
  - apply H1. vm_compute. left. reflexivity.
  - apply H2.
    + vm_compute. repeat constructor.
    + vm_compute. right. left. reflexivity.
    + reflexivity.
Defined.

Lemma store_get_in (store : RouteStore) (id : string) (r : RouteOut) :
  store_get store id = Some r -> In (id, r) store.
Proof.
  induction store as [|[k v] rest IH]; simpl; [discriminate|].
  destruct (String.eqb_spec k id) as [->|_].
  - intros H. injection H as ->. now left.
  - intros H. right. now apply IH.
Qed.

Lemma store_get_none (store : RouteStore) (id : string) :
  store_get store id = None <-> ~ In id (map fst store).
Proof.
  induction store as [|[k v] rest IH]; simpl.
  - split; [intros _ []|reflexivity].
  - destruct (String.eqb_spec k id) as [->|Hn].
    + split; [discriminate|]. intros H. exfalso. apply H. now left.
    + rewrite IH. split.
      * intros H [E|E]; [contradiction|now apply H].
      * intros H E. apply H. now right.
Qed.

(** In a store without a repeated key, an entry is what [dict.get] finds. *)
Lemma store_get_of_entry (store : RouteStore) (id : string) (r : RouteOut) :
  NoDup (map fst store) -> In (id, r) store -> store_get store id = Some r.
Proof.
  induction store as [|[k v] rest IH]; simpl; [intros _ []|].
  intros Hd Hi. inversion Hd as [|? ? Hk Hr]; subst.
  destruct (String.eqb_spec k id) as [->|Hn].
  - destruct Hi as [E|Hi]; [now injection E as ->|].
    exfalso. apply Hk. apply (in_map fst) in Hi. exact Hi.
  - destruct Hi as [E|Hi]; [injection E as -> _; contradiction|].
    now apply IH.
Qed.

(** X4. [get_route] answers with a route exactly when the id is a key of the
    store, and then with the route stored under that id; for any other id it
    raises 404 "Route not found." without headers, and nothing else. *)
Theorem get_route_finds_the_stored_route (store : RouteStore) (id : string) :
  match run (get_route store id) with
  | Returned r => In (id, r) store
  | Raised e => e = route_not_found /\ ~ In id (map fst store)
  end.
Proof.
  unfold get_route.
  destruct (store_get store id) as [r|] eqn:E; cbn.
  - now apply store_get_in.
  - split; [reflexivity|]. now apply store_get_none.
Qed.

(** X5. On a store keyed by route id, every route that [list_routes] shows,
    on any page and under any filter, is fetched back by [get_route] under its
    own [route_id]. *)
Theorem listed_routes_can_be_fetched (store : RouteStore)
  (city : option string) (ttype : option TransportType) (limit offset : nat)
  (r : RouteOut) :
  keyed_by_route_id store ->
  In r (items (list_routes store city ttype limit offset)) ->
  run (get_route store (route_id r)) = Returned r.
Proof.
  intros [Hd Hk] Hi.
  rewrite list_routes_filtered in Hi. cbn [items] in Hi.
  apply in_page, filter_In in Hi. destruct Hi as [Hi _].
  apply in_map_iff in Hi as [[k v] [E Hi]]. cbn in E. subst v.
  rewrite Forall_forall in Hk. pose proof (Hk _ Hi) as Hid. cbn in Hid.
  unfold get_route. rewrite Hid.
  now rewrite (store_get_of_entry store k r Hd Hi).
Qed.

Lemma listed_routes_can_be_fetched_witness :
  run (get_route route_store
         (route_id (mkRouteOut "route-1" "North Loop" "Helsinki" tram 18)))
  = Returned (mkRouteOut "route-1" "North Loop" "Helsinki" tram 18).
Proof.
  apply (listed_routes_can_be_fetched route_store None (Some tram) 20 0).
  - split.
    + vm_compute. repeat constructor; simpl; intuition discriminate.
    + vm_compute. repeat constructor.
  - vm_compute. left. reflexivity.
Defined.

(** X6. The "active_routes" figure of the system metrics is the [total] that
    an unfiltered [list_routes] reports on the same store, for any page. *)
Theorem metrics_count_the_listed_routes (store : RouteStore) (key : string)
  (limit offset : nat) :
  header_key_metrics store key
  = [ ("active_routes",
       Z.of_nat (total (list_routes store None None limit offset)));
      ("active_vehicles", 112) ].
Proof.
  unfold header_key_metrics, list_routes. cbn [total].
  now rewrite length_map.
Qed.

(** ** Exactly which requests authenticate *)

Lemma partition_found (sep : ascii) (s before found after : string) :
  partition sep s = (before, found, after) ->
  (found = String sep EmptyString /\ s = before ++ String sep after
   /\ contains sep before = false)
  \/ (found = EmptyString /\ after = EmptyString /\ s = before).
Proof.
  revert before found after.
  induction s as [|c s IH]; simpl; intros before found after H.
  - injection H as <- <- <-. right. repeat split.
  - destruct (Ascii.eqb_spec c sep) as [->|Hn].
    + injection H as <- <- <-. left. repeat split.
    + destruct (partition sep s) as [[b f] a].
      injection H as <- <- <-.
      destruct (IH b f a eq_refl) as [(-> & -> & Hc)|(-> & -> & ->)].
      * left. repeat split. simpl. rewrite Hc.
        apply Ascii.eqb_neq in Hn. now rewrite Hn.
      * right. repeat split.
Qed.

(** A scheme that is not empty comes from a header that is not empty. *)
Lemma scheme_has_header (value : option string) (sch param : string) :
  get_authorization_scheme_param value = (sch, param) ->
  truthy sch = true -> opt_truthy value = true.
Proof.
  destruct value as [v|]; simpl.
  - destruct (truthy v); [reflexivity|].
    intros H. injection H as <- <-. discriminate.
  - intros H. injection H as <- <-. discriminate.
Qed.

(** X7. The Bearer strategy authenticates a request exactly when, of the
    scheme and the parameter that [get_authorization_scheme_param] finds in
    its [Authorization] header, the scheme is the word "bearer" in some casing
    and the parameter is the trusted bearer token; it then returns that
    token. *)
Theorem bearer_strategy_accepts_exactly (request : Request) (token : string) :
  let halves := get_authorization_scheme_param (header_authorization request) in
  run (bearer_strategy request) = Returned token
  <-> lower (fst halves) = "bearer"
      /\ snd halves = DEMO_BEARER_TOKEN
      /\ token = DEMO_BEARER_TOKEN.
Proof.
  cbv zeta. unfold bearer_strategy. rewrite require_bearer_token_run.
  unfold bearer_auth.
  destruct (get_authorization_scheme_param (header_authorization request))
    as [sch param] eqn:P.
  cbn [fst snd]. split.
  - destruct (negb (_ && _ && _)); [discriminate|].
    destruct (String.eqb_spec (lower sch) "bearer") as [Hs|]; [|discriminate].
    cbn [negb scheme credentials]. rewrite Hs.
    change (negb (String.eqb "bearer" "bearer")) with false. cbv iota.
    destruct (isascii param); [|discriminate].
    destruct (String.eqb_spec param DEMO_BEARER_TOKEN) as [Ht|]; [|discriminate].
    intros H. injection H as <-. auto.
  - intros (Hs & -> & ->).
    assert (Hsch : truthy sch = true)
      by (destruct sch; [discriminate Hs|reflexivity]).
    rewrite (scheme_has_header _ _ _ P Hsch), Hsch, Hs.
    change (truthy DEMO_BEARER_TOKEN) with true.
    change (String.eqb "bearer" "bearer") with true.
    cbn [negb andb scheme credentials]. rewrite Hs. reflexivity.
Qed.

(** X8. The OAuth2Password strategy authenticates a request exactly when, of
    the scheme and the parameter that [get_authorization_scheme_param] finds
    in its [Authorization] header, the scheme is the word "bearer" in some
    casing and the parameter is the token the token endpoint issues; the
    bearer token of the Bearer scheme is not accepted there. *)
Theorem oauth2_strategy_accepts_exactly (request : Request) (token : string) :
  let halves := get_authorization_scheme_param (header_authorization request) in
  run (oauth2_strategy request) = Returned token
  <-> lower (fst halves) = "bearer"
      /\ snd halves = DEMO_OAUTH_TOKEN
      /\ token = DEMO_OAUTH_TOKEN.
Proof.
  cbv zeta. rewrite oauth2_strategy_run. unfold oauth2_auth.
  destruct (get_authorization_scheme_param (header_authorization request))
    as [sch param] eqn:P.
  cbn [fst snd]. split.
  - destruct (negb (opt_truthy _)); [discriminate|]. cbn [orb].
    destruct (String.eqb_spec (lower sch) "bearer") as [Hs|]; [|discriminate].
    cbn [negb]. rewrite require_oauth2_token_run.
    destruct (isascii param); [|discriminate].
    destruct (String.eqb_spec param DEMO_OAUTH_TOKEN) as [Ht|]; [|discriminate].
    intros H. injection H as <-. auto.
  - intros (Hs & -> & ->).
    assert (Hsch : truthy sch = true)
      by (destruct sch; [discriminate Hs|reflexivity]).
    rewrite (scheme_has_header _ _ _ P Hsch), Hs. reflexivity.
Qed.

(** X9. The API-key strategy authenticates exactly the requests whose
    [x-api-key] header is the trusted key, and the session-cookie strategy
    exactly those whose [session_token] cookie is the trusted session token;
    each returns the value it read. *)
Theorem api_key_strategies_accept_exactly (request : Request) (value : string) :
  (run (api_key_header_strategy request) = Returned value
   <-> header_x_api_key request = Some DEMO_HEADER_API_KEY
       /\ value = DEMO_HEADER_API_KEY)
  /\ (run (session_cookie_strategy request) = Returned value
      <-> cookie_session_token request = Some DEMO_SESSION_TOKEN
          /\ value = DEMO_SESSION_TOKEN).
Proof.
  unfold api_key_header_strategy, api_key_header_auth,
    session_cookie_strategy, api_key_cookie_auth.
  rewrite require_api_key_header_run, require_session_cookie_run.
  split; split.
  - destruct (header_x_api_key request) as [k|]; cbn; [|discriminate].
    destruct (truthy k); cbn; [|discriminate].
    destruct (isascii k); [|discriminate].
    destruct (String.eqb_spec k DEMO_HEADER_API_KEY) as [->|]; [|discriminate].
    intros H. injection H as <-. now split.
  - intros [-> ->]. reflexivity.
  - destruct (cookie_session_token request) as [k|]; cbn; [|discriminate].
    destruct (truthy k); cbn; [|discriminate].
    destruct (isascii k); [|discriminate].
    destruct (String.eqb_spec k DEMO_SESSION_TOKEN) as [->|]; [|discriminate].
    intros H. injection H as <-. now split.
  - intros [-> ->]. reflexivity.
Qed.

(** X10. The Basic strategy authenticates a request exactly when, of the
    scheme and the parameter that [get_authorization_scheme_param] finds in
    its [Authorization] header, the scheme is the word "basic" in some casing
    and the parameter base64-decodes to ["admin:admin-password"]; it then
    returns the trusted pair. *)
Theorem basic_strategy_accepts_exactly (request : Request)
  (c : HTTPBasicCredentials) :
  let halves := get_authorization_scheme_param (header_authorization request) in
  run (basic_strategy request) = Returned c
  <-> lower (fst halves) = "basic"
      /\ b64decode (snd halves) = Some "admin:admin-password"
      /\ c = mkBasic DEMO_BASIC_USERNAME DEMO_BASIC_PASSWORD.
Proof.
  cbv zeta. rewrite basic_strategy_closed. unfold basic_auth.
  destruct (get_authorization_scheme_param (header_authorization request))
    as [sch param] eqn:P.
  cbn [fst snd]. split.
  - destruct (negb (opt_truthy _)); [discriminate|]. cbn [orb].
    destruct (String.eqb_spec (lower sch) "basic") as [Hs|]; [|discriminate].
    cbn [negb].
    destruct (b64decode param) as [bytes|] eqn:B; [|discriminate].
    unfold decode_ascii. destruct (isascii bytes); [|discriminate].
    destruct (partition ":" bytes) as [[user separator] pass] eqn:Q.
    destruct (truthy separator) eqn:S; [|discriminate]. cbn [negb].
    cbn [username password run snd].
    destruct (String.eqb_spec user DEMO_BASIC_USERNAME) as [->|];
      [|discriminate].
    destruct (String.eqb_spec pass DEMO_BASIC_PASSWORD) as [->|];
      [|discriminate].
    cbn [andb]. intros H. injection H as <-.
    destruct (partition_found _ _ _ _ _ Q) as [(_ & -> & _)|(-> & _)];
      [|discriminate S].
    auto.
  - intros (Hs & B & ->).
    assert (Hsch : truthy sch = true)
      by (destruct sch; [discriminate Hs|reflexivity]).
    rewrite (scheme_has_header _ _ _ P Hsch), Hs, B. reflexivity.
Qed.

(** ** The hybrid dependency, completely *)

Lemma try_bearer_run (creds : option HTTPAuthorizationCredentials) :
  run (try_bearer creds)
  = match creds with
    | None => Returned None
    | Some c =>
        if String.eqb (lower (scheme c)) "bearer"
        then if isascii (credentials c)
             then if String.eqb (credentials c) DEMO_BEARER_TOKEN
                  then Returned (Some "bearer")
                  else Returned None
             else Raised TypeError
        else Returned None
    end.
Proof.
  destruct creds as [c|]; [|reflexivity]. unfold try_bearer.
  destruct (String.eqb (lower (scheme c)) "bearer"); [|reflexivity].
  by_cases.
Qed.

Lemma try_api_key_run (x_api_key : option string) :
  run (try_api_key x_api_key)
  = match x_api_key with
    | None => Returned None
    | Some k =>
        if truthy k
        then if isascii k
             then if String.eqb k DEMO_HEADER_API_KEY
                  then Returned (Some "api_key_header")
                  else Returned None
             else Raised TypeError
        else Returned None
    end.
Proof.
  destruct x_api_key as [k|]; [|reflexivity]. unfold try_api_key.
  destruct (truthy k); [|reflexivity].
  by_cases.
Qed.

Lemma require_bearer_or_api_key_run
  (creds : option HTTPAuthorizationCredentials) (x_api_key : option string) :
  run (require_bearer_or_api_key creds x_api_key)
  = match run (try_bearer creds) with
    | Returned (Some method) => Returned method
    | Returned None =>
        match run (try_api_key x_api_key) with
        | Returned (Some method) => Returned method
        | Returned None =>
            Raised (failure 401
                      "Provide a valid bearer token or x-api-key header."
                      WWW_Bearer)
        | Raised e => Raised e
        end
    | Raised e => Raised e
    end.
Proof.
  unfold require_bearer_or_api_key.
  destruct (try_bearer creds) as [t [[m|]|e]]; msimpl; try reflexivity.
  destruct (try_api_key x_api_key) as [t' [[m|]|e]]; reflexivity.
Qed.

(** X11. The hybrid dependency reports "bearer" exactly when the credentials
    carry the bearer scheme and the trusted bearer token, whatever the API
    key; it reports "api_key_header" exactly when the bearer side fell through
    (absent, another scheme, or another ASCII token) and the API key is the
    trusted one. *)
Theorem hybrid_reports_the_scheme_that_matched
  (creds : option HTTPAuthorizationCredentials) (x_api_key : option string) :
  (run (require_bearer_or_api_key creds x_api_key) = Returned "bearer"
   <-> exists c, creds = Some c /\ lower (scheme c) = "bearer"
                 /\ credentials c = DEMO_BEARER_TOKEN)
  /\ (run (require_bearer_or_api_key creds x_api_key) = Returned "api_key_header"
      <-> bearer_falls_through creds /\ x_api_key = Some DEMO_HEADER_API_KEY).
Proof.
  rewrite require_bearer_or_api_key_run, try_bearer_run, try_api_key_run.
  split; split.
  - destruct creds as [c|].
    + destruct (String.eqb_spec (lower (scheme c)) "bearer") as [Hs|Hs].
      * destruct (isascii (credentials c)); [|discriminate].
        destruct (String.eqb_spec (credentials c) DEMO_BEARER_TOKEN) as [Ht|Ht].
        -- intros _. now exists c.
        -- destruct x_api_key as [k|]; [|discriminate].
           destruct (truthy k); [|discriminate].
           destruct (isascii k); [|discriminate].
           destruct (String.eqb k DEMO_HEADER_API_KEY); discriminate.
      * destruct x_api_key as [k|]; [|discriminate].
        destruct (truthy k); [|discriminate].
        destruct (isascii k); [|discriminate].
        destruct (String.eqb k DEMO_HEADER_API_KEY); discriminate.
    + destruct x_api_key as [k|]; [|discriminate].
      destruct (truthy k); [|discriminate].
      destruct (isascii k); [|discriminate].
      destruct (String.eqb k DEMO_HEADER_API_KEY); discriminate.
  - intros (c & -> & Hs & Ht). rewrite Hs, Ht. reflexivity.
  - assert (K : match x_api_key with
                | Some k =>
                    if truthy k
                    then if isascii k
                         then if String.eqb k DEMO_HEADER_API_KEY
                              then Returned (Some "api_key_header")
                              else Returned None
                         else Raised TypeError
                    else Returned None
                | None => Returned None
                end = Returned (Some "api_key_header") ->
                x_api_key = Some DEMO_HEADER_API_KEY).
    { destruct x_api_key as [k|]; [|discriminate].
      destruct (truthy k); [|discriminate].
      destruct (isascii k); [|discriminate].
      destruct (String.eqb_spec k DEMO_HEADER_API_KEY) as [->|];
        [reflexivity|discriminate]. }
    unfold bearer_falls_through.
    destruct creds as [c|].
    + destruct (String.eqb_spec (lower (scheme c)) "bearer") as [Hs|Hs].
      * destruct (isascii (credentials c)) eqn:Ha; [|discriminate].
        destruct (String.eqb_spec (credentials c) DEMO_BEARER_TOKEN) as [Ht|Ht];
          [discriminate|].
        intros H. split; [now right|]. apply K.
        destruct x_api_key as [k|]; [|discriminate H].
        destruct (truthy k); [|discriminate H].
        destruct (isascii k); [|discriminate H].
        destruct (String.eqb k DEMO_HEADER_API_KEY);
          [reflexivity|discriminate H].
      * intros H. split; [now left|]. apply K.
        destruct x_api_key as [k|]; [|discriminate H].
        destruct (truthy k); [|discriminate H].
        destruct (isascii k); [|discriminate H].
        destruct (String.eqb k DEMO_HEADER_API_KEY);
          [reflexivity|discriminate H].
    + intros H. split; [exact I|]. apply K.
      destruct x_api_key as [k|]; [|discriminate H].
      destruct (truthy k); [|discriminate H].
      destruct (isascii k); [|discriminate H].
      destruct (String.eqb k DEMO_HEADER_API_KEY);
        [reflexivity|discriminate H].
  - intros [Hb ->]. change (truthy DEMO_HEADER_API_KEY) with true.
    change (isascii DEMO_HEADER_API_KEY) with true.
    change (String.eqb DEMO_HEADER_API_KEY DEMO_HEADER_API_KEY) with true.
    cbv iota.
    destruct creds as [c|]; [|reflexivity].
    destruct Hb as [Hs|[Ha Ht]].
    + apply String.eqb_neq in Hs. now rewrite Hs.
    + destruct (String.eqb (lower (scheme c)) "bearer"); [|reflexivity].
      rewrite Ha. apply String.eqb_neq in Ht. now rewrite Ht.
Qed.

(** ** Where a [TypeError] can come from, and what failures say *)

(** X12. A strategy ends in a [TypeError] exactly when the credential it
    digests holds a non-ASCII character: the bearer token, the OAuth token,
    the API key, the session cookie.  The Basic strategy never does. *)
Theorem type_error_exactly_on_non_ascii (request : Request) :
  run (basic_strategy request) <> Raised TypeError
  /\ (run (bearer_strategy request) = Raised TypeError
      <-> exists c, bearer_auth request = Some c
                    /\ isascii (credentials c) = false)
  /\ (run (oauth2_strategy request) = Raised TypeError
      <-> exists token, oauth2_auth request = Returned token
                        /\ isascii token = false)
  /\ (run (api_key_header_strategy request) = Raised TypeError
      <-> exists key, header_x_api_key request = Some key
                      /\ isascii key = false)
  /\ (run (session_cookie_strategy request) = Raised TypeError
      <-> exists cookie, cookie_session_token request = Some cookie
                         /\ isascii cookie = false).
Proof.
  split; [|split; [|split; [|split]]].
  - pose proof (basic_strategy_fails_with request) as H.
    intros E. rewrite E in H. exact H.
  - unfold bearer_strategy. rewrite require_bearer_token_run. split.
    + destruct (bearer_auth request) as [c|]; [|discriminate].
      destruct (negb _); [discriminate|].
      destruct (isascii (credentials c)) eqn:Ha;
        [destruct (String.eqb _ _); discriminate|].
      intros _. now exists c.
    + intros (c & E & Ha). rewrite E, (bearer_auth_scheme _ _ E), Ha.
      reflexivity.
  - rewrite oauth2_strategy_run. split.
    + destruct (oauth2_auth request) as [token|e] eqn:E.
      * rewrite require_oauth2_token_run.
        destruct (isascii token) eqn:Ha;
          [destruct (String.eqb _ _); discriminate|].
        intros _. now exists token.
      * revert E. unfold oauth2_auth.
        destruct (get_authorization_scheme_param _) as [sch param].
        destruct (_ || _); [|discriminate].
        intros E. injection E as <-. discriminate.
    + intros (token & -> & Ha). rewrite require_oauth2_token_run, Ha.
      reflexivity.
  - unfold api_key_header_strategy, api_key_header_auth.
    rewrite require_api_key_header_run. split.
    + destruct (header_x_api_key request) as [k|]; cbn; [|discriminate].
      destruct (truthy k); cbn; [|discriminate].
      destruct (isascii k) eqn:Ha; [destruct (String.eqb _ _); discriminate|].
      intros _. now exists k.
    + intros (k & -> & Ha). cbn.
      assert (T : truthy k = true) by (destruct k; [discriminate Ha|reflexivity]).
      rewrite T. cbn. now rewrite Ha.
  - unfold session_cookie_strategy, api_key_cookie_auth.
    rewrite require_session_cookie_run. split.
    + destruct (cookie_session_token request) as [k|]; cbn; [|discriminate].
      destruct (truthy k); cbn; [|discriminate].
      destruct (isascii k) eqn:Ha; [destruct (String.eqb _ _); discriminate|].
      intros _. now exists k.
    + intros (k & -> & Ha). cbn.
      assert (T : truthy k = true) by (destruct k; [discriminate Ha|reflexivity]).
      rewrite T. cbn. now rewrite Ha.
Qed.

(** X13. What a dependency raises never carries the presented credential:
    whatever the input, the exception is one of the two fixed failures of that
    dependency (its "Missing" and its "Invalid" one; a single one for the
    OAuth2 and the hybrid dependency), or the [TypeError]. *)
Theorem failures_do_not_echo_the_credential (e : exn) :
  (forall creds, run (require_basic_auth creds) = Raised e ->
     In e [ failure 401 "Missing basic authentication credentials." WWW_Basic;
            failure 401 "Invalid basic authentication credentials." WWW_Basic;
            TypeError ])
  /\ (forall creds, run (require_bearer_token creds) = Raised e ->
        In e [ failure 401 "Missing bearer token." WWW_Bearer;
               failure 401 "Invalid bearer token." WWW_Bearer;
               TypeError ])
  /\ (forall key, run (require_api_key_header key) = Raised e ->
        In e [ failure 403 "Missing x-api-key header." [];
               failure 403 "Invalid x-api-key header." [];
               TypeError ])
  /\ (forall cookie, run (require_session_cookie cookie) = Raised e ->
        In e [ failure 403 "Missing session_token cookie." [];
               failure 403 "Invalid session_token cookie." [];
               TypeError ])
  /\ (forall token, run (require_oauth2_token token) = Raised e ->
        In e [ failure 401 "Invalid OAuth2 access token." WWW_Bearer;
               TypeError ])
  /\ (forall creds key, run (require_bearer_or_api_key creds key) = Raised e ->
        In e [ failure 401 "Provide a valid bearer token or x-api-key header."
                 WWW_Bearer;
               TypeError ]).
Proof.
  split; [|split; [|split; [|split; [|split]]]].
  - intros [c|]; [|intros H; injection H as <-; now left].
    unfold require_basic_auth, compare_digest. msimpl.
    change (isascii DEMO_BASIC_USERNAME) with true.
    change (isascii DEMO_BASIC_PASSWORD) with true.
    destruct (isascii (username c)); msimpl;
      [|intros H; injection H as <-; simpl; auto].
    destruct (isascii (password c)); msimpl;
      [|intros H; injection H as <-; simpl; auto].
    destruct (String.eqb (username c) DEMO_BASIC_USERNAME);
      destruct (String.eqb (password c) DEMO_BASIC_PASSWORD); msimpl;
      intros H; try discriminate H; injection H as <-; simpl; auto.
  - intros creds. rewrite require_bearer_token_run.
    destruct creds as [c|];
      [ destruct (negb _); [|destruct (isascii _); [destruct (String.eqb _ _)|]]
      | ]; intros H; try discriminate H; injection H as <-; simpl; auto.
  - intros key. rewrite require_api_key_header_run.
    destruct key as [k|];
      [ destruct (isascii _); [destruct (String.eqb _ _)|] | ];
      intros H; try discriminate H; injection H as <-; simpl; auto.
  - intros cookie. rewrite require_session_cookie_run.
    destruct cookie as [k|];
      [ destruct (isascii _); [destruct (String.eqb _ _)|] | ];
      intros H; try discriminate H; injection H as <-; simpl; auto.
  - intros token. rewrite require_oauth2_token_run.
    destruct (isascii _); [destruct (String.eqb _ _)|];
      intros H; try discriminate H; injection H as <-; simpl; auto.
  - intros creds key.
    rewrite require_bearer_or_api_key_run, try_bearer_run, try_api_key_run.
    assert (K : match
                  match key with
                  | Some k =>
                      if truthy k
                      then if isascii k
                           then if String.eqb k DEMO_HEADER_API_KEY
                                then Returned (Some "api_key_header")
                                else Returned None
                           else Raised TypeError
                      else Returned None
                  | None => Returned None
                  end
                with
                | Returned (Some method) => Returned method
                | Returned None =>
                    Raised (failure 401
                              "Provide a valid bearer token or x-api-key header."
                              WWW_Bearer)
                | Raised e0 => Raised e0
                end = Raised e ->
                In e [ failure 401
                         "Provide a valid bearer token or x-api-key header."
                         WWW_Bearer; TypeError ]).
    { destruct key as [k|];
        [ destruct (truthy k);
          [destruct (isascii k); [destruct (String.eqb _ _)|]|] | ];
        intros H; try discriminate H; injection H as <-; simpl; auto. }
    destruct creds as [c|]; [|exact K].
    destruct (String.eqb _ _); [|exact K].
    destruct (isascii _);
      [|intros H; injection H as <-; simpl; auto].
    destruct (String.eqb _ _); [discriminate|exact K].
Qed.

Lemma failures_do_not_echo_the_credential_witness :
  In (failure 401 "Invalid bearer token." WWW_Bearer)
     [ failure 401 "Missing bearer token." WWW_Bearer;
       failure 401 "Invalid bearer token." WWW_Bearer;
       TypeError ].
Proof.
  apply (proj1 (proj2 (failures_do_not_echo_the_credential
                         (failure 401 "Invalid bearer token." WWW_Bearer)))
           (Some (mkAuthorization "Bearer" "not-the-token"))).
  reflexivity.
Defined.

(** ** Schemes do not stand in for one another *)

(** What the Authorization-based strategies found in the header they
    accepted. *)
Lemma accepted_authorization (request : Request) :
  let halves := get_authorization_scheme_param (header_authorization request) in
  ((exists c, run (basic_strategy request) = Returned c) ->
   lower (fst halves) = "basic")
  /\ ((exists t, run (bearer_strategy request) = Returned t) ->
      lower (fst halves) = "bearer" /\ snd halves = DEMO_BEARER_TOKEN)
  /\ ((exists t, run (oauth2_strategy request) = Returned t) ->
      lower (fst halves) = "bearer" /\ snd halves = DEMO_OAUTH_TOKEN).
Proof.
  cbv zeta. split; [|split].
  - intros [c H]. rewrite basic_strategy_closed in H.
    destruct (basic_auth request) as [[c0|]|e] eqn:E; try discriminate H.
    revert E. unfold basic_auth.
    destruct (get_authorization_scheme_param _) as [sch param].
    destruct (negb (opt_truthy _)); [discriminate|]. cbn [orb fst].
    destruct (String.eqb_spec (lower sch) "basic"); [auto|discriminate].
  - intros [t H]. unfold bearer_strategy in H.
    rewrite require_bearer_token_run in H.
    destruct (bearer_auth request) as [c|] eqn:E; [|discriminate H].
    destruct (negb _); [discriminate H|].
    destruct (isascii _); [|discriminate H].
    destruct (String.eqb_spec (credentials c) DEMO_BEARER_TOKEN) as [Ht|];
      [|discriminate H].
    revert E. unfold bearer_auth.
    destruct (get_authorization_scheme_param _) as [sch cred].
    destruct (negb _); [discriminate|].
    destruct (String.eqb_spec (lower sch) "bearer"); [|discriminate].
    cbn [negb]. intros E. injection E as <-. cbn in Ht. now split.
  - intros [t H]. rewrite oauth2_strategy_run in H. revert H.
    unfold oauth2_auth.
    destruct (get_authorization_scheme_param _) as [sch param].
    destruct (negb (opt_truthy _)); [discriminate|]. cbn [orb fst snd].
    destruct (String.eqb_spec (lower sch) "bearer"); [|discriminate].
    cbn [negb]. rewrite require_oauth2_token_run.
    destruct (isascii _); [|discriminate].
    destruct (String.eqb_spec param DEMO_OAUTH_TOKEN); [|discriminate].
    now split.
Qed.

(** X14. No request authenticates under two of the three strategies that read
    the [Authorization] header (Basic, Bearer, OAuth2Password): the bearer
    token does not open the OAuth operations, nor the OAuth token the bearer
    one.  Likewise no user name and password are accepted both by the session
    login and by the token endpoint. *)
Theorem schemes_do_not_stand_in_for_one_another (request : Request) :
  ~ ((exists c, run (basic_strategy request) = Returned c)
     /\ (exists t, run (bearer_strategy request) = Returned t))
  /\ ~ ((exists c, run (basic_strategy request) = Returned c)
        /\ (exists t, run (oauth2_strategy request) = Returned t))
  /\ ~ ((exists t, run (bearer_strategy request) = Returned t)
        /\ (exists t, run (oauth2_strategy request) = Returned t))
  /\ (forall user pass response,
        ~ ((exists r, run (session_login (mkSessionLoginIn user pass) response)
                      = Returned r)
           /\ (exists t, run (oauth_token (mkForm user pass)) = Returned t))).
Proof.
  pose proof (accepted_authorization request) as (Hb & Hr & Ho).
  cbv zeta in *.
  split; [|split; [|split]].
  - intros [H1 H2]. apply Hb in H1. apply Hr in H2 as [H2 _].
    rewrite H1 in H2. discriminate.
  - intros [H1 H2]. apply Hb in H1. apply Ho in H2 as [H2 _].
    rewrite H1 in H2. discriminate.
  - intros [H1 H2]. apply Hr in H1 as [_ H1]. apply Ho in H2 as [_ H2].
    rewrite H1 in H2. discriminate.
  - intros user pass response [[r H1] [t H2]].
    rewrite session_login_run in H1. rewrite oauth_token_run in H2.
    cbn [login_username login_password form_username form_password] in *.
    destruct (String.eqb_spec user DEMO_BASIC_USERNAME) as [->|];
      [|discriminate H1].
    discriminate H2.
Qed.

(** ** From issuance to use *)

(** X15. Whatever the token endpoint returns on success opens the OAuth
    operations: a request whose [Authorization] header is the returned
    [token_type], one space, and the returned [access_token] gets the
    dispatcher profile, and its dispatch is scheduled as "dispatch-1" with the
    fields of the payload. *)
Theorem issued_token_opens_the_oauth_operations
  (form_data : OAuth2PasswordRequestForm) (issued : TokenOut)
  (key cookie : option string) (payload : DispatchIn) :
  run (oauth_token form_data) = Returned issued ->
  let request :=
    mkRequest (Some (token_type issued ++ " " ++ access_token issued))
      key cookie in
  run (oauth_profile_operation request)
  = Returned (mkProfileOut "dispatcher-7" "oauth2-password")
  /\ run (create_dispatch_operation request payload)
     = Returned (mkDispatchOut "dispatch-1" (dispatch_in_vehicle_id payload)
                   (dispatch_in_route_id payload)
                   (dispatch_in_departs_at payload) "scheduled").
Proof.
  rewrite oauth_token_run.
  destruct (_ && _); [|discriminate].
  intros H. injection H as <-. split; reflexivity.
Qed.

Lemma issued_token_opens_the_oauth_operations_witness :
  let request := mkRequest (Some "bearer demo-oauth-token") None None in
  let payload := mkDispatchIn "bus-12" "route-2" (mkDatetime 2026 3 2 6 0) None in
  run (oauth_profile_operation request)
  = Returned (mkProfileOut "dispatcher-7" "oauth2-password")
  /\ run (create_dispatch_operation request payload)
     = Returned (mkDispatchOut "dispatch-1" "bus-12" "route-2"
                   (mkDatetime 2026 3 2 6 0) "scheduled").
Proof.
  apply (issued_token_opens_the_oauth_operations
           (mkForm DEMO_OAUTH_USERNAME DEMO_OAUTH_PASSWORD)
           (mkTokenOut DEMO_OAUTH_TOKEN "bearer") None None
           (mkDispatchIn "bus-12" "route-2" (mkDatetime 2026 3 2 6 0) None)).
  reflexivity.
Defined.

(** X16. The alert of the hybrid operation names the scheme that
    authenticated the request: its message is "Hybrid-authenticated via
    bearer." or "Hybrid-authenticated via api_key_header.", under the fixed id
    "alert-1" and level low, and nothing else is ever answered on success. *)
Theorem hybrid_alert_names_the_scheme (request : Request) :
  match run (hybrid_alert_operation request) with
  | Returned alert =>
      alert = mkAlertOut "alert-1" low "Hybrid-authenticated via bearer."
      \/ alert
         = mkAlertOut "alert-1" low "Hybrid-authenticated via api_key_header."
  | Raised e => run (hybrid_strategy request) = Raised e
  end.
Proof.
  unfold hybrid_alert_operation, hybrid_strategy.
  pose proof (hybrid_returns_a_method_name (bearer_auth request)
                (api_key_header_auth request)) as H.
  destruct (require_bearer_or_api_key _ _) as [t [m|e]]; msimpl; cbn in *.
  - destruct H as [-> | ->]; [left|right]; reflexivity.
  - reflexivity.
Qed.

(** ** Every authentication failure, by scheme *)

(** X17. On every request, whatever [HTTPException] a strategy ends in,
    raised by the dependency or by the security class under it, has the status
    and the headers of its scheme: 401 with [WWW-Authenticate: Basic] for
    Basic, 401 with [WWW-Authenticate: Bearer] for Bearer, OAuth2Password and
    the hybrid dependency, 403 with no header at all for the API-key header
    and the session cookie. *)
Theorem every_failure_has_its_scheme_status (request : Request) :
  no_failure_but (run (basic_strategy request)) 401 WWW_Basic
  /\ no_failure_but (run (bearer_strategy request)) 401 WWW_Bearer
  /\ no_failure_but (run (oauth2_strategy request)) 401 WWW_Bearer
  /\ no_failure_but (run (hybrid_strategy request)) 401 WWW_Bearer
  /\ no_failure_but (run (api_key_header_strategy request)) 403 []
  /\ no_failure_but (run (session_cookie_strategy request)) 403 [].
Proof.
  assert (T : forall A (o : outcome A) code hs,
             (forall e, o = Raised (HTTPError e) ->
                        status_code e = code /\ headers e = hs) ->
             no_failure_but o code hs).
  { intros A o code hs H. destruct o as [a|[e|]]; simpl; auto. }
  repeat match goal with |- _ /\ _ => split end; apply T; intros e H.
  - now apply (proj1 (raised_failures_follow_the_table request e)).
  - now apply (proj1 (proj2 (raised_failures_follow_the_table request e))).
  - now apply (proj1 (proj2 (proj2 (raised_failures_follow_the_table request e)))).
  - unfold hybrid_strategy in H.
    rewrite require_bearer_or_api_key_run, try_bearer_run, try_api_key_run in H.
    assert (K : forall o : outcome (option string),
               (o = Returned None \/ o = Returned (Some "api_key_header")
                \/ o = Raised TypeError) ->
               match o with
               | Returned (Some method) => Returned method
               | Returned None =>
                   Raised (failure 401
                             "Provide a valid bearer token or x-api-key header."
                             WWW_Bearer)
               | Raised e0 => Raised e0
               end = Raised (HTTPError e) ->
               status_code e = 401 /\ headers e = WWW_Bearer).
    { intros o [->|[->| ->]] E; try discriminate E.
      injection E as <-. now split. }
    assert (Hk : forall key : option string,
               let o := match key with
                        | Some k =>
                            if truthy k
                            then if isascii k
                                 then if String.eqb k DEMO_HEADER_API_KEY
                                      then Returned (Some "api_key_header")
                                      else Returned None
                                 else Raised TypeError
                            else Returned None
                        | None => Returned None
                        end in
               o = Returned None \/ o = Returned (Some "api_key_header")
               \/ o = Raised TypeError).
    { intros [k|]; cbv zeta; [|auto].
      destruct (truthy k); [|auto].
      destruct (isascii k); [|auto].
      destruct (String.eqb k DEMO_HEADER_API_KEY); auto. }
    pose proof (K _ (Hk (api_key_header_auth request))) as Kk.
    destruct (bearer_auth request) as [c|]; [|now apply Kk].
    destruct (String.eqb _ _); [|now apply Kk].
    destruct (isascii _); [|discriminate H].
    destruct (String.eqb _ _); [discriminate H|now apply Kk].
  - now apply (proj1 (proj2 (proj2 (proj2
                 (raised_failures_follow_the_table request e))))).
  - now apply (proj2 (proj2 (proj2 (proj2
                 (raised_failures_follow_the_table request e))))).
Qed.

(** ** The acceptance theorems at work *)

Lemma bearer_strategy_accepts_exactly_witness :
  run (bearer_strategy (mkRequest (Some "BeArEr demo-bearer-token") None None))
  = Returned DEMO_BEARER_TOKEN.
Proof.
  apply (proj2 (bearer_strategy_accepts_exactly
                  (mkRequest (Some "BeArEr demo-bearer-token") None None)
                  DEMO_BEARER_TOKEN)).
  repeat split; reflexivity.
Defined.

Lemma oauth2_strategy_accepts_exactly_witness :
  run (oauth2_strategy (mkRequest (Some "bearer demo-oauth-token") None None))
  = Returned DEMO_OAUTH_TOKEN.
Proof.
  apply (proj2 (oauth2_strategy_accepts_exactly
                  (mkRequest (Some "bearer demo-oauth-token") None None)
                  DEMO_OAUTH_TOKEN)).
  repeat split; reflexivity.
Defined.

Lemma api_key_strategies_accept_exactly_witness :
  let request :=
    mkRequest None (Some "demo-header-api-key") (Some "demo-session-token") in
  run (api_key_header_strategy request) = Returned DEMO_HEADER_API_KEY
  /\ run (session_cookie_strategy request) = Returned DEMO_SESSION_TOKEN.
Proof.
  cbv zeta. split.
  - apply (proj2 (proj1 (api_key_strategies_accept_exactly
                           (mkRequest None (Some "demo-header-api-key")
                              (Some "demo-session-token"))
                           DEMO_HEADER_API_KEY))).
    split; reflexivity.
  - apply (proj2 (proj2 (api_key_strategies_accept_exactly
                           (mkRequest None (Some "demo-header-api-key")
                              (Some "demo-session-token"))
                           DEMO_SESSION_TOKEN))).
    split; reflexivity.
Defined.

Lemma basic_strategy_accepts_exactly_witness :
  run (basic_strategy
         (mkRequest (Some "BASIC YWRtaW46YWRtaW4tcGFzc3dvcmQ=") None None))
  = Returned (mkBasic DEMO_BASIC_USERNAME DEMO_BASIC_PASSWORD).
Proof.
  apply (proj2 (basic_strategy_accepts_exactly
                  (mkRequest (Some "BASIC YWRtaW46YWRtaW4tcGFzc3dvcmQ=")
                     None None)
                  (mkBasic DEMO_BASIC_USERNAME DEMO_BASIC_PASSWORD))).
  repeat split; reflexivity.
Defined.

Lemma hybrid_reports_the_scheme_that_matched_witness :
  run (require_bearer_or_api_key
         (Some (mkAuthorization "Bearer" "stale-token"))
         (Some DEMO_HEADER_API_KEY))
  = Returned "api_key_header".
Proof.
  apply (proj2 (proj2 (hybrid_reports_the_scheme_that_matched
                         (Some (mkAuthorization "Bearer" "stale-token"))
                         (Some DEMO_HEADER_API_KEY)))).
  split; [|reflexivity]. right. split; [reflexivity|discriminate].
Defined.

Lemma type_error_exactly_on_non_ascii_witness :
  run (session_cookie_strategy (mkRequest None None (Some e_acute)))
  = Raised TypeError.
Proof.
  apply (proj2 (proj2 (proj2 (proj2 (proj2
           (type_error_exactly_on_non_ascii
              (mkRequest None None (Some e_acute)))))))).
  exists e_acute. split; reflexivity.
Defined.
